(* ===== verification/_CoqProject ===== *)
-Q . S2P
Prelude.v
Config.v
Loader.v
Splitter.v
Chain.v
Index.v
App.v
Pipeline.v
