(* ===== verification/Prelude.v ===== *)
(** * A verification development of Rag-Company

    Rag-Company is a retrieval-augmented question answering program
    in two Python files:
    - [src/Rag/Rag_project.py] holds the pipeline.
      [load_documents] reads the PDF, TXT and Markdown files of a
      directory. [split_text] cuts the documents into chunks of at most
      1000 characters with an overlap of at most 200.
      [create_vector_store] embeds the chunks and persists them in a
      Chroma index on disk. [construct_query] asks a chat model to
      rewrite the question into a search query. [get_retriever] wraps
      the top-5 similarity search in a MultiQueryRetriever.
      [create_rag_chain] formats the retrieved documents and the
      question into a prompt and returns the model's text.
      The [__main__] block opens the index or builds it, rewrites a
      fixed question and runs the chain on the rewritten query.
    - [src/app.py] is a Streamlit front end that imports those
      functions. It has a password gate ([check_password]), a re-index
      button (delete the index directory, then rebuild it), a cached
      [init_rag], and a chat turn that appends to
      [st.session_state.messages].

    Most of the work is done by library classes. The modules below
    model them from the spec and from the documented behaviour of the
    classes the code instantiates:
    [RecursiveCharacterTextSplitter], [DirectoryLoader], [TextLoader],
    [PyPDFLoader], [Chroma], [MultiQueryRetriever],
    [LineListOutputParser], [StrOutputParser] and [ChatPromptTemplate].
    These models are marked [spec_modelled] in PROJECT.json. The code
    of the two files is translated from the source lines.

    ** Files, in dependency order
    - [Prelude] (this file). Python strings are lists of code points
      ([list N]), so that [len] is [length]. It defines [py_isspace],
      [py_strip] and [py_join] as Python defines them. It also defines
      a [result] type for Python exceptions, with the bind notation
      [x <- c ;; k] in [rag_scope] and [result_map] for a list
      comprehension that may raise. It holds the LangChain [Document],
      the shared list lemmas, the [rag] hint databases, and the
      [inv_bind]/[inv_binds] tactics that split a successful bind.
    - [Config] (modules [Environ], [Imports]): the start-up code. The
      environment the providers see is [os.environ] after the
      import-time [load_dotenv()] (line 71) and [init_rag]'s copy of
      the [OPENAI_API_KEY] secret followed by a second [load_dotenv()]
      ([app.py] lines 93-96). The import of [MultiQueryRetriever] tries
      three modules in turn (lines 38-45). Theorems ([ConfigSpec]):
      - the precedence of a variable's values: the secret, then the
        process environment, then the [.env] file found from
        [src/Rag], then the one found from [src].
    - [Loader] (module [Loader]): [load_documents] runs its three
      [DirectoryLoader]s ([pdf_loader], [txt_loader],
      [markdown_loader]) over what is at [DATA_PATH]: nothing (the
      loader raises [FileNotFoundError]), a file ([ValueError]), or a
      directory whose files are listed in walk order.
      Theorems ([LoaderSpec]):
      - what a successful load returns (counts and [source] paths);
      - that one bad file makes the whole load raise;
      - which files are loaded, with which loader: hidden files and
        other extensions are ignored, and a visible [.pdf], [.txt] or
        [.md] file gives what its loader makes of it.
    - [Splitter] (modules [TextSplitter], [RagProject]):
      [RecursiveCharacterTextSplitter] as [split_text] calls it with
      [chunk_size=1000] and [chunk_overlap=200]. It covers the literal
      [re.split], the walk down the separator list, the recursive split
      of long pieces, and [_merge_splits] with its [while] loop.
      Theorems ([SplitterSpec]):
      - the pieces concatenate back to the text;
      - the merge loop never raises;
      - every chunk is at most [chunk_size] long;
      - the source's [split_text] always returns bounded chunks with
        their document's metadata;
      - a document shorter than a chunk becomes one chunk, its text
        stripped;
      - every two-paragraph document of a given shape is cut into its
        two paragraphs, with no overlap at all, against the spec.
    - [Chain] (modules [PromptTemplate], [RagChain]): the f-string
      template parser and [format], [construct_query] with its
      [rewriter], [get_retriever] with its [base_retriever], the
      multi-query retrieval, [create_rag_chain], its [invoke], and
      [run_answer], the query path of [__main__]. The chat model is an
      oracle [llm]; the store is reached through the [VectorSearch]
      class. Theorems ([ChainSpec]):
      - the exact prompts sent to the model;
      - the retrieved context is the de-duplicated union of the
        searches;
      - the end-to-end characterisation of an answer;
      - the errors of the expansion call and an empty expansion.
    - [Index] (module [Chroma]): [create_vector_store] on the index
      directory, with batches, fresh ids and the similarity search,
      behind the [Embeddings] class for the provider. Theorems
      ([IndexSpec]):
      - the collection invariant (distinct ids below the counter);
      - a successful build appends exactly the chunks;
      - a failed build stops at the first failing batch and leaves the
        earlier batches in the directory;
      - the spec's self-retrieval round trip.
    - [App] (module [StreamlitApp]): one run of [app.py] on a [world]
      (session dict as a [gmap], index directory, cache), the rerun
      loop [serve], and [handle_event]. The pipeline is the
      [RagBackend] class. Theorems ([AppSpec]):
      - the session invariant on every reachable world, by rule
        induction, and the type of the session dict (only a bool
        [authenticated] and a list [messages]);
      - liveness: a Login event with the right password and then a
        chat message get the chain's answer into the history;
      - a failing load keeps the app from ever building, caching or
        chatting, along any sequence of events ([run_events]);
      - the stale cache after a re-index;
      - the loss of the index when a re-index fails to load;
      - the default password, and that without the password no event
        reaches the pipeline or the history;
      - termination of the rerun loop.
    - [Pipeline] (modules [Main], [PipelineSpec]): the constants
      [DATA_PATH] and [CHROMA_PATH], the [__main__] block, and
      [rag_backend], the real pipeline as the app's [RagBackend].
      Theorems:
      - what an answer of [__main__] without an index directory
        implies (load, split, and a new directory with the chunks);
      - the app's chat turn is the query path of [__main__];
      - a re-index whose build fails leaves a partial index that a
        fresh process serves;
      - with nothing at the hard-coded [DATA_PATH] and no shipped
        index, the app never serves: every event ends at the gate or
        with [FileNotFoundError].

    ** Fuel and bounds
    [re_split] recurses on the remainder after a separator, which is
    not a structural subterm. It gets fuel [S (length text)]. Each
    round consumes at least one character, because the separator is
    non-empty. [re_split_fuel_enough] proves that any larger fuel gives
    the same result, so the fuel is never what stops the loop.
    [batches] gets the list's length as fuel; with a batch size of at
    least one each round consumes an element, and [batches_concat]
    shows nothing is lost. The rerun loop [serve] gets fuel 2, and
    [serve_fuel_enough] shows that more fuel changes nothing. The recursive splitter, the template parser
    and the loaders are structural and need no fuel.

    ** Not modelled
    - Embedding values, completions and similarity are oracles: the
      [Embeddings] class, the [llm] argument and the [distance]
      function. The HNSW index is modelled as an exact search.
    - Glob matching is case-sensitive, as on POSIX systems; on Windows,
      pathlib matches the globs case-insensitively.
    - Within one batch, Chroma's [add_texts] writes the chunks with
      metadata before those without; the model writes them in chunk
      order, the same here since every chunk carries its [source].
    - The library's default expansion prompt and Python's [repr] of a
      [Document] are left abstract.
    - Streamlit rendering, printing and progress bars are pure I/O.
    - PDF byte parsing and UTF-8 decoding are given per file.
    - The imports other than [MultiQueryRetriever]'s only bind library
      names. How the providers use [OPENAI_API_KEY] is part of the
      oracles. A missing secrets file is modelled as empty secrets.
    - PyPDFLoader's metadata beyond [source] and [page] is omitted. *)

From Stdlib Require Export NArith ZArith Ascii String Lia.
From stdpp Require Export base list gmap strings.

(** ** Python strings *)

(** A Python [str] is a sequence of code points; [len] counts them. *)
Abbreviation pystr := (list N).

(** A literal written in ASCII, read as a list of code points. *)
Definition lit (s : string) : pystr := map N_of_ascii (list_ascii_of_string s).

Definition zlen {A} (l : list A) : Z := Z.of_nat (length l).

(** [str.isspace] on one code point, as CPython defines it
    (Unicode White_Space plus the ASCII separators 0x1C..0x1F). *)
Definition py_isspace (c : N) : bool :=
  ((9 <=? c) && (c <=? 13))%N || ((28 <=? c) && (c <=? 32))%N
  || (c =? 133)%N || (c =? 160)%N || (c =? 5760)%N
  || ((8192 <=? c) && (c <=? 8202))%N
  || (c =? 8232)%N || (c =? 8233)%N || (c =? 8239)%N || (c =? 8287)%N
  || (c =? 12288)%N.

Fixpoint drop_while {A} (p : A -> bool) (l : list A) : list A :=
  match l with
  | [] => []
  | x :: r => if p x then drop_while p r else l
  end.

(** [str.strip()] with no argument. *)
Definition py_strip (s : pystr) : pystr :=
  rev (drop_while py_isspace (rev (drop_while py_isspace s))).

(** [sep.join(xs)]. *)
Fixpoint py_join (sep : pystr) (xs : list pystr) : pystr :=
  match xs with
  | [] => []
  | [x] => x
  | x :: r => x ++ sep ++ py_join sep r
  end.

(** [s.startswith(p)], and [p in s] for a literal [p]. *)
Fixpoint py_startswith (s p : pystr) {struct p} : bool :=
  match p, s with
  | [], _ => true
  | c :: p', d :: s' => bool_decide (c = d) && py_startswith s' p'
  | _ :: _, [] => false
  end.

Fixpoint py_contains (s p : pystr) : bool :=
  py_startswith s p || match s with [] => false | _ :: s' => py_contains s' p end.

(** [s.split(sep)] for a one-character [sep]: the pieces between the
    occurrences, [[""]] for the empty string. *)
Fixpoint py_split_char (sep : N) (s : pystr) : list pystr :=
  match s with
  | [] => [[]]
  | x :: r =>
      let rest := py_split_char sep r in
      if bool_decide (x = sep) then [] :: rest
      else match rest with
           | p :: ps => (x :: p) :: ps
           | [] => [[x]]
           end
  end.

(** ** Exceptions and the result type *)

(** The Python exceptions the modelled code can raise or propagate. *)
Inductive py_exn :=
  | ValueError (msg : string)
  | IndexError
  | LoadError (path : string)
  | FileNotFoundError (path : string)
  | ProviderError (service : string)
  | KeyError (key : string)
  | ImportError (name : string).

#[export] Instance py_exn_eq_dec : EqDecision py_exn.
Proof. solve_decision. Defined.

Inductive result (A : Type) :=
  | Ok (a : A)
  | Err (e : py_exn).
Arguments Ok {A} a.
Arguments Err {A} e.

Definition rbind {A B} (c : result A) (k : A -> result B) : result B :=
  match c with Ok a => k a | Err e => Err e end.

Declare Scope rag_scope.
Delimit Scope rag_scope with rag.
Notation "x <- c ;; k" := (rbind c (fun x => k))
  (at level 100, c at next level, right associativity) : rag_scope.
Open Scope rag_scope.

Definition is_ok {A} (r : result A) : bool :=
  match r with Ok _ => true | Err _ => false end.

(** [[f(x) for x in l]] where [f] may raise: the first exception
    propagates. *)
Fixpoint result_map {A B} (f : A -> result B) (l : list A) : result (list B) :=
  match l with
  | [] => Ok []
  | x :: r => y <- f x ;; ys <- result_map f r ;; Ok (y :: ys)
  end.

(** ** LangChain documents *)

(** A metadata value: the code only stores paths (strings) and page
    numbers (ints). *)
Inductive meta_val :=
  | MStr (s : string)
  | MInt (z : Z).

#[export] Instance meta_val_eq_dec : EqDecision meta_val.
Proof. solve_decision. Defined.

(** [langchain_core.documents.Document]: the text, the metadata dict
    and the optional id that a vector store fills in.
    Equality of two documents is field-wise, as for pydantic models; a
    dict is compared without regard to order, which [gmap] gives. *)
Record Document := mkDocument {
  page_content : pystr;
  metadata : gmap string meta_val;
  doc_id : option string
}.

(** The decision only inspects the three field decisions, so that it
    computes under [vm_compute]. *)
#[export] Instance Document_eq_dec : EqDecision Document.
Proof.
  refine (λ d1 d2,
    match decide (page_content d1 = page_content d2) with
    | left E1 =>
        match decide (metadata d1 = metadata d2) with
        | left E2 =>
            match decide (doc_id d1 = doc_id d2) with
            | left E3 => left _
            | right N => right _
            end
        | right N => right _
        end
    | right N => right _
    end); destruct d1, d2; simpl in *; congruence.
Defined.

(** ** Shared lemmas *)

Create HintDb rag discriminated.
Create Rewrite HintDb rag_simpl.

Lemma rbind_Ok_inv {A B} (c : result A) (k : A -> result B) v :
  rbind c k = Ok v -> exists a, c = Ok a /\ k a = Ok v.
Proof. destruct c; simpl; [eauto | discriminate]. Qed.

Lemma rbind_Ok {A B} (a : A) (k : A -> result B) : rbind (Ok a) k = k a.
Proof. reflexivity. Qed.

Lemma rbind_Err {A B} e (k : A -> result B) : rbind (Err e) k = Err e.
Proof. reflexivity. Qed.

#[export] Hint Rewrite @rbind_Ok @rbind_Err : rag_simpl.

(** Split a hypothesis [rbind c k = Ok v] into its two halves. *)
Ltac inv_bind H :=
  let a := fresh "a" in let Ha := fresh "Hc" in let Hk := fresh "Hk" in
  apply rbind_Ok_inv in H as (a & Ha & Hk).

(** Split every [rbind c k = Ok v] of the context, and the [Ok]
    equations that result. *)
Ltac inv_binds :=
  repeat match goal with H : rbind _ _ = Ok _ |- _ => inv_bind H end; simplify_eq.

(** Settle every [Z] comparison [x <? y] of the goal that [lia]
    decides from the context. *)
Ltac zltb_by_lia :=
  repeat match goal with |- context [(?x <? ?y)%Z] =>
    first [rewrite (proj2 (Z.ltb_lt x y)) by lia | rewrite (proj2 (Z.ltb_ge x y)) by lia] end.

Lemma drop_while_suffix {A} (p : A -> bool) l :
  exists pre, l = pre ++ drop_while p l.
Proof.
  induction l as [|x r [pre IH]]; simpl; [by exists []|].
  destruct (p x); [exists (x :: pre); simpl; congruence | by exists []].
Qed.

Lemma py_strip_infix s : exists a b, s = a ++ py_strip s ++ b.
Proof.
  unfold py_strip.
  destruct (drop_while_suffix py_isspace s) as [a Ha].
  set (t := drop_while py_isspace s) in *.
  destruct (drop_while_suffix py_isspace (rev t)) as [b Hb].
  exists a, (rev b).
  rewrite Ha at 1. f_equal.
  rewrite <- (rev_involutive t) at 1. rewrite Hb at 1.
  by rewrite rev_app_distr.
Qed.

Lemma py_strip_length s : length (py_strip s) <= length s.
Proof.
  destruct (py_strip_infix s) as (a & b & E).
  rewrite E at 2. rewrite !length_app. lia.
Qed.
#[export] Hint Resolve py_strip_length : rag.

Lemma py_join_nil sep : py_join sep [] = [].
Proof. reflexivity. Qed.

Lemma py_join_snoc sep xs x :
  py_join sep (xs ++ [x]) = if xs is [] then x else py_join sep xs ++ sep ++ x.
Proof.
  induction xs as [|y [|z r] IH]; simpl; [done|done|].
  simpl in IH. rewrite IH. destruct r; simpl; by rewrite <- !app_assoc.
Qed.

Lemma py_join_cons sep x xs :
  py_join sep (x :: xs) = if xs is [] then x else x ++ sep ++ py_join sep xs.
Proof. by destruct xs. Qed.

(** [''.join(xs)] *)
Lemma py_join_empty xs : py_join [] xs = concat xs.
Proof. induction xs as [|x [|y r] IH]; simpl in *; rewrite ?app_nil_r; try done. by rewrite IH. Qed.

(** Each piece of a list is no longer than the pieces joined. *)
Lemma length_le_concat {A} (l : list (list A)) :
  Forall (fun s => length s <= length (concat l)) l.
Proof.
  induction l as [|x r IH]; constructor; simpl; rewrite length_app; [lia|].
  eapply Forall_impl; [exact IH|]. simpl. lia.
Qed.

Lemma zlen_app {A} (l1 l2 : list A) : zlen (l1 ++ l2) = (zlen l1 + zlen l2)%Z.
Proof. unfold zlen. rewrite length_app. lia. Qed.

Lemma zlen_nonneg {A} (l : list A) : (0 <= zlen l)%Z.
Proof. unfold zlen. lia. Qed.
#[export] Hint Resolve zlen_nonneg : rag.

Lemma zlen_nil_iff {A} (l : list A) : zlen l = 0%Z <-> l = [].
Proof. unfold zlen. destruct l; simpl; split; try done; lia. Qed.

Lemma concat_filter_nonempty {A} (l : list (list A)) :
  concat (filter (fun s => negb (bool_decide (s = []))) l) = concat l.
Proof.
  induction l as [|x r IH]; [done|].
  rewrite filter_cons. destruct x; simpl; by rewrite IH.
Qed.

Lemma py_startswith_spec s p : py_startswith s p = true <-> exists r, s = p ++ r.
Proof.
  revert s. induction p as [|c p IH]; intros s; simpl; [split; eauto|].
  destruct s as [|d s]; [split; [done|by intros [r ?]]|].
  rewrite andb_true_iff, IH. case_bool_decide; subst; split.
  - intros [_ [r ->]]; eauto.
  - intros [r Hr]; simplify_eq; eauto.
  - by intros [? _].
  - intros [r Hr]; simplify_eq.
Qed.

Lemma Forall_filter_weaken {A} (P : A -> Prop) (f : A -> bool) l :
  Forall P l -> Forall P (filter f l).
Proof.
  induction 1 as [|x r Hx _ IH]; [constructor|].
  rewrite filter_cons. destruct (f x); [constructor|]; auto.
Qed.

Lemma Forall_filter_true {A} (f : A -> bool) l :
  Forall (fun x => f x = true) (filter f l).
Proof.
  induction l as [|x r IH]; [constructor|].
  rewrite filter_cons. destruct (f x) eqn:E; [constructor|]; auto.
Qed.

Lemma result_map_Ok {A B} (f : A -> result B) l ys :
  result_map f l = Ok ys -> Forall2 (fun x y => f x = Ok y) l ys.
Proof.
  revert ys. induction l as [|x r IH]; intros ys H; simpl in H.
  - injection H as <-. constructor.
  - inv_binds. constructor; auto.
Qed.

Lemma result_map_Err {A B} (f : A -> result B) l x :
  x ∈ l -> is_ok (f x) = false -> is_ok (result_map f l) = false.
Proof.
  induction 1 as [x r|x y r _ IH]; intros Hx; simpl.
  - destruct (f x); simpl in *; congruence.
  - destruct (f y); simpl; [|done]. specialize (IH Hx).
    destruct (result_map f r); simpl in *; congruence.
Qed.

