(* ===== verification/Config.v ===== *)
(** * Config: the process environment and the import of the retriever

    Two pieces of start-up code of the program, which run before any
    document is loaded:
    - the environment that reaches the providers. [load_dotenv()] runs
      when [Rag_project.py] is imported (line 71). [init_rag] in
      [app.py] (lines 93-96) then copies [OPENAI_API_KEY] from the
      Streamlit secrets into [os.environ] and calls [load_dotenv()]
      again. [Environ] models [os.environ] as a map, the [.env] file as
      its list of assignments, and python-dotenv's [load_dotenv] with
      [override=False] (library code, modelled from its documented
      behaviour).
    - the three nested [try]/[except ImportError] blocks of lines
      38-45, which bind [MultiQueryRetriever] from the first module that
      provides it. [Imports] models them as a search over the candidate
      modules in the code's order.

    The theorem shows the precedence of the values a variable can take:
    the secret (for [OPENAI_API_KEY]), then the process environment,
    then the [.env] file found from [src/Rag], then the one found from
    [src]. *)

From S2P Require Import Prelude.

(** ** [os.environ] and [.env] *)

Module Environ.

Abbreviation env := (gmap string pystr).

(** The parsed [.env] file, as python-dotenv's [dotenv_values] builds
    it: a dict filled in file order, so a later assignment of a key
    replaces an earlier one. *)
Definition dotenv_values (entries : list (string * pystr)) : env :=
  foldl (fun m kv => <[kv.1 := kv.2]> m) ∅ entries.

(** [load_dotenv()] with [override=False]: each key of the file is set
    unless [os.environ] already had it when the call began. *)
Definition load_dotenv (entries : list (string * pystr)) (environ : env) : env :=
  foldl (fun e kv => if decide (is_Some (environ !! kv.1)) then e else <[kv.1 := kv.2]> e)
    environ entries.

Definition OPENAI_API_KEY : string := "OPENAI_API_KEY".

(** [app.py] lines 93-94: [if hasattr(st, "secrets") and
    "OPENAI_API_KEY" in st.secrets: os.environ[...] = st.secrets[...]]
    ([hasattr] always holds: [st.secrets] is an attribute of the
    module). *)
Definition bridge_secrets (secrets : gmap string pystr) (environ : env) : env :=
  match secrets !! OPENAI_API_KEY with
  | Some key => <[OPENAI_API_KEY := key]> environ
  | None => environ
  end.

(** The import of [Rag_project] runs [load_dotenv()] (line 71).
    [find_dotenv] searches upwards from the directory of the calling
    file, [src/Rag]; [entries] is the [.env] file it finds. *)
Definition import_env (entries : list (string * pystr)) (environ : env) : env :=
  load_dotenv entries environ.

(** Lines 93-96 of [init_rag]: the secrets bridge, then [load_dotenv()]
    again; called from [app.py], so [entries] is the [.env] file found
    upwards from [src]. *)
Definition init_rag_env (secrets : gmap string pystr) (entries : list (string * pystr))
    (environ : env) : env :=
  load_dotenv entries (bridge_secrets secrets environ).

(** The environment when [init_rag]'s body reaches line 97: [app.py]
    imports [Rag_project] (line 4), then calls [init_rag]. The two
    calls may find different [.env] files. *)
Definition startup_env (secrets : gmap string pystr)
    (rag_entries app_entries : list (string * pystr)) (environ : env) : env :=
  init_rag_env secrets app_entries (import_env rag_entries environ).

End Environ.

(** ** The import of [MultiQueryRetriever] (lines 38-45) *)

Module Imports.

Inductive retriever_module :=
  | LangchainRetrieversMultiQuery   (* langchain.retrievers.multi_query *)
  | LangchainCommunityRetrievers    (* langchain_community.retrievers *)
  | LangchainRetrievers.            (* langchain.retrievers *)

#[export] Instance retriever_module_eq_dec : EqDecision retriever_module.
Proof. solve_decision. Defined.

Definition module_name (m : retriever_module) : string :=
  match m with
  | LangchainRetrieversMultiQuery => "langchain.retrievers.multi_query"
  | LangchainCommunityRetrievers => "langchain_community.retrievers"
  | LangchainRetrievers => "langchain.retrievers"
  end.

(** Nested [try: from m import MultiQueryRetriever except ImportError:]
    blocks: the first module that provides the name is bound; the
    innermost [from] has no handler, so its [ImportError] propagates. *)
Fixpoint try_imports (provides : retriever_module -> bool) (ms : list retriever_module)
    : result retriever_module :=
  match ms with
  | [] => Err (ImportError "MultiQueryRetriever")
  | [m] => if provides m then Ok m else Err (ImportError (module_name m))
  | m :: rest => if provides m then Ok m else try_imports provides rest
  end.

Definition import_candidates : list retriever_module :=
  [LangchainRetrieversMultiQuery; LangchainCommunityRetrievers; LangchainRetrievers].

Definition import_multi_query (provides : retriever_module -> bool) : result retriever_module :=
  try_imports provides import_candidates.

End Imports.

(** ** Properties of the start-up code *)

Module ConfigSpec.
Import Environ Imports.

Section Dotenv.
Variable environ : env.

(** One assignment of the file: the lookup of the environment stays
    the process's value, else the file's value so far. *)
Lemma load_dotenv_step (e m : env) k' v :
  (forall k, e !! k = environ !! k ∪ m !! k) ->
  forall k, (if decide (is_Some (environ !! k')) then e else <[k' := v]> e) !! k
            = environ !! k ∪ <[k' := v]> m !! k.
Proof.
  intros He k. destruct (decide (k = k')) as [->|Hne].
  - rewrite lookup_insert_eq. case_decide as Hs.
    + rewrite He. destruct Hs as [x ->]. by destruct (m !! k').
    + rewrite lookup_insert_eq. by destruct (environ !! k') eqn:E; [destruct Hs; eauto|].
  - rewrite lookup_insert_ne by done. case_decide; [done|].
    rewrite lookup_insert_ne by done. apply He.
Qed.

Lemma load_dotenv_fold entries (e m : env) :
  (forall k, e !! k = environ !! k ∪ m !! k) ->
  forall k,
    foldl (fun e kv => if decide (is_Some (environ !! kv.1)) then e else <[kv.1 := kv.2]> e)
      e entries !! k
    = environ !! k ∪ foldl (fun m kv => <[kv.1 := kv.2]> m) m entries !! k.
Proof.
  revert e m. induction entries as [|[k' v] entries IH]; intros e m He; simpl; [done|].
  apply IH. by apply load_dotenv_step.
Qed.

(** [load_dotenv] with [override=False] is the left-biased union of
    the process environment with the file's values. *)
Lemma load_dotenv_lookup entries k :
  load_dotenv entries environ !! k = environ !! k ∪ dotenv_values entries !! k.
Proof.
  apply load_dotenv_fold. intros k'. rewrite lookup_empty. by destruct (environ !! k').
Qed.

End Dotenv.

(** C25: the environment the providers see. After the import's
    [load_dotenv()] and lines 93-96 of [init_rag], a variable has the
    Streamlit secret's value when it is [OPENAI_API_KEY] and the secret
    exists, else the value the process was started with, else the value
    of the [.env] file found from [src/Rag], else that of the [.env]
    file found from [src] (in each file, its last assignment). *)
Theorem startup_env_lookup secrets rag_entries app_entries environ k :
  startup_env secrets rag_entries app_entries environ !! k
  = (((if decide (k = OPENAI_API_KEY) then secrets !! OPENAI_API_KEY else None)
      ∪ environ !! k) ∪ dotenv_values rag_entries !! k) ∪ dotenv_values app_entries !! k.
Proof.
  unfold startup_env, init_rag_env, import_env. rewrite load_dotenv_lookup.
  unfold bridge_secrets. case_decide as Hk.
  - subst k. destruct (secrets !! OPENAI_API_KEY); rewrite ?lookup_insert_eq, ?load_dotenv_lookup;
      by destruct (environ !! _), (dotenv_values rag_entries !! _), (dotenv_values app_entries !! _).
  - destruct (secrets !! OPENAI_API_KEY); rewrite ?lookup_insert_ne, load_dotenv_lookup by done;
      by destruct (environ !! k), (dotenv_values rag_entries !! k), (dotenv_values app_entries !! k).
Qed.

End ConfigSpec.
