(* ===== verification/Loader.v ===== *)
(** * Loader: [load_documents] and the LangChain loaders it runs

    [load_documents(data_path)] ([Rag_project.py] lines 82-124) runs
    three [DirectoryLoader]s over the data directory, in order: PDFs
    with [PyPDFLoader], then [.txt] files, then [.md] files, both with
    [TextLoader(encoding="utf-8")]. It concatenates what they return.

    What is at [DATA_PATH] is a [data_dir]: nothing, in which case
    [DirectoryLoader.load] raises [FileNotFoundError]; a file
    ([ValueError]); or a directory, a list of [file]s in the order
    pathlib's glob walks them. Each file carries what the two readers make of its bytes:
    - the text, when the bytes are valid UTF-8;
    - the text of each page, when pypdf can parse it.
    The loaders are modelled from their documented behaviour; the
    defaults the code keeps are these:
    - [load_hidden=False]: files under a dot-component are skipped;
    - [silent_errors=False]: the first file that fails to load raises
      out of [load()] and nothing is returned;
    - text mode: [open(...).read()] turns [\r\n] and [\r] into [\n].
    PyPDFLoader's metadata is its [source] and [page] keys; the
    producer and creation keys of newer versions are not modelled. *)

From S2P Require Import Prelude.

Module Loader.

(** ** The data directory *)

Record file := mkFile {
  (** the path below [data_path], one component per entry *)
  f_parts : list string;
  (** the bytes decoded as UTF-8, or [None] when they are not UTF-8 *)
  f_utf8 : option pystr;
  (** the text [pypdf] extracts from each page, or [None] when it
      cannot parse the file *)
  f_pdf : option (list pystr)
}.

Inductive loader_cls := PyPDFLoader | TextLoader.

(** What is at [data_path]: nothing, a file, or a directory with its
    files in walk order. *)
Inductive data_dir :=
  | DirMissing
  | DirIsFile
  | DirFiles (files : list file).

Section Loader.
(** [data_path] and [os.sep] *)
Variable data_path : string.
Variable sep : string.

(** [str(item)]: the path the loaders put in [metadata["source"]]. *)
Definition str_path (f : file) : string :=
  (data_path ++ sep ++ String.concat sep (f_parts f))%string.

Definition ends_with (suffix s : string) : bool :=
  let n := String.length s in
  let m := String.length suffix in
  (m <=? n) && String.eqb (String.substring (n - m) m s) suffix.

(** [pathlib]'s [glob("**/*" + ext)]: a file at any depth whose name
    ends with [ext]. *)
Definition glob_match (ext : string) (f : file) : bool :=
  match last (f_parts f) with Some name => ends_with ext name | None => false end.

(** [_is_visible(item.relative_to(path))]: no component starts with a dot. *)
Definition is_visible (f : file) : bool :=
  forallb (fun part => negb (String.prefix "." part)) (f_parts f).

(** The files a [DirectoryLoader] with [glob="**/*" + ext] loads. *)
Definition selected (ext : string) (f : file) : bool := glob_match ext f && is_visible f.

(** Text-mode reading: [\r\n] and a lone [\r] become [\n]. *)
Fixpoint universal_newlines (s : pystr) : pystr :=
  match s with
  | [] => []
  | c :: r =>
      if (c =? 13)%N then
        match r with
        | d :: r' => if (d =? 10)%N then 10%N :: universal_newlines r'
                     else 10%N :: universal_newlines r
        | [] => [10%N]
        end
      else c :: universal_newlines r
  end.

(** [TextLoader(path, encoding="utf-8").load()]: one document; a
    decoding error becomes [RuntimeError(f"Error loading {path}")]. *)
Definition text_load (f : file) : result (list Document) :=
  match f_utf8 f with
  | Some text =>
      Ok [mkDocument (universal_newlines text) {["source"%string := MStr (str_path f)]} None]
  | None => Err (LoadError (str_path f))
  end.

(** [PyPDFLoader(path).load()]: one document per page, numbered from 0. *)
Definition pdf_load (f : file) : result (list Document) :=
  match f_pdf f with
  | Some pages =>
      Ok (imap (fun i text =>
                  mkDocument text (<["page"%string := MInt (Z.of_nat i)]>
                                     {["source"%string := MStr (str_path f)]}) None) pages)
  | None => Err (LoadError (str_path f))
  end.

Definition loader_load (cls : loader_cls) (f : file) : result (list Document) :=
  match cls with
  | PyPDFLoader => pdf_load f
  | TextLoader => text_load f
  end.

(** [DirectoryLoader(data_path, glob="**/*" + ext, loader_cls=cls).load()]:
    the selected files in walk order; the first exception is raised
    again ([silent_errors=False]). *)
Fixpoint directory_load (ext : string) (cls : loader_cls) (files : list file)
    : result (list Document) :=
  match files with
  | [] => Ok []
  | f :: rest =>
      if selected ext f then
        docs <- loader_load cls f ;;
        more <- directory_load ext cls rest ;;
        Ok (docs ++ more)
      else directory_load ext cls rest
  end.

(** The three loaders of [load_documents]: the extension of the glob
    and the loader class. [pdf_loader], lines 92-94. *)
Definition pdf_loader : string * loader_cls := (".pdf"%string, PyPDFLoader).
(** [txt_loader], lines 104-110. *)
Definition txt_loader : string * loader_cls := (".txt"%string, TextLoader).
(** [markdown_loader], lines 114-120. *)
Definition markdown_loader : string * loader_cls := (".md"%string, TextLoader).

(** [DirectoryLoader.load()] with the checks [lazy_load] makes on the
    path first: a missing path raises [FileNotFoundError], a file
    raises [ValueError]. *)
Definition directory_load_at (ext : string) (cls : loader_cls) (d : data_dir)
    : result (list Document) :=
  match d with
  | DirMissing => Err (FileNotFoundError data_path)
  | DirIsFile => Err (ValueError "Expected directory, got file")
  | DirFiles files => directory_load ext cls files
  end.

(** [load_documents(data_path)], lines 82-124. *)
Definition load_documents (d : data_dir) : result (list Document) :=
  pdf <- directory_load_at pdf_loader.1 pdf_loader.2 d ;;
  txt <- directory_load_at txt_loader.1 txt_loader.2 d ;;
  md <- directory_load_at markdown_loader.1 markdown_loader.2 d ;;
  Ok (pdf ++ txt ++ md).

End Loader.

End Loader.

(** ** Properties of the loader *)

Module LoaderSpec.
Import Loader.

(** The three [DirectoryLoader]s of [load_documents]. *)
Definition supported (f : file) : bool :=
  selected ".pdf" f || selected ".txt" f || selected ".md" f.

(** How many documents a file yields when it loads. *)
Definition doc_count (cls : loader_cls) (f : file) : nat :=
  match cls with
  | PyPDFLoader => default 0 (length <$> f_pdf f)
  | TextLoader => 1
  end.

Definition source_of (d : Document) : option meta_val := metadata d !! "source"%string.

(** The file filters as [DirectoryLoader]'s documentation states them:
    a file is skipped when a component of its path below the data
    directory starts with a dot, or when its name matches none of the
    three globs; the PDFs go to [PyPDFLoader], the rest to
    [TextLoader]. *)
Definition hidden (f : file) : bool := existsb (String.prefix ".") (f_parts f).

Definition loadable (f : file) : bool :=
  negb (hidden f) && (glob_match ".pdf" f || glob_match ".txt" f || glob_match ".md" f).

Definition loader_of (f : file) : loader_cls :=
  if glob_match ".pdf" f then PyPDFLoader else TextLoader.

(** The spec's partial-failure scenario: one good and one undecodable
    text file. *)
Definition good_txt : file := mkFile ["policy.txt"%string] (Some (lit "Closed on Fridays.")) None.
Definition bad_txt : file := mkFile ["notes.txt"%string] None None.

Section Proofs.
Variable data_path sep : string.

Lemma universal_newlines_no_cr n s : length s <= n -> 13%N ∉ universal_newlines s.
Proof.
  revert s. induction n as [|n IH]; intros s Hn.
  - destruct s; [apply not_elem_of_nil|simpl in Hn; lia].
  - destruct s as [|c r]; simpl in *; [apply not_elem_of_nil|].
    destruct (N.eqb_spec c 13) as [->|Hc].
    + destruct r as [|d r']; [apply not_elem_of_cons; split; [done|apply not_elem_of_nil]|].
      destruct (N.eqb_spec d 10); apply not_elem_of_cons;
        (split; [done|]); apply IH; simpl in *; lia.
    + apply not_elem_of_cons. split; [done|]. apply IH. lia.
Qed.

(** [directory_load] interleaves the filter and the loads; it is the
    same as loading every selected file and concatenating. *)
Lemma directory_load_map ext cls files :
  directory_load data_path sep ext cls files =
    (ds <- result_map (loader_load data_path sep cls) (filter (selected ext) files) ;;
     Ok (concat ds)).
Proof.
  induction files as [|f r IH]; [done|]. simpl. rewrite filter_cons, IH.
  destruct (selected ext f); [|done]. simpl.
  destruct (loader_load _ _ cls f); simpl; [|done].
  by destruct (result_map _ _).
Qed.

Lemma loader_load_count cls f ds :
  loader_load data_path sep cls f = Ok ds -> length ds = doc_count cls f.
Proof.
  destruct cls; simpl.
  - unfold pdf_load. destruct (f_pdf f); intros H; simplify_eq. by rewrite length_imap.
  - unfold text_load. destruct (f_utf8 f); intros H; by simplify_eq.
Qed.

Lemma sum_list_text l : sum_list (map (doc_count TextLoader) l) = length l.
Proof. induction l; simpl; lia. Qed.

Lemma loader_load_source cls f ds d :
  loader_load data_path sep cls f = Ok ds -> d ∈ ds ->
  source_of d = Some (MStr (str_path data_path sep f)).
Proof.
  destruct cls; simpl.
  - unfold pdf_load. destruct (f_pdf f) as [pages|]; intros H; simplify_eq.
    intros Hd. apply elem_of_lookup_imap in Hd as (i & text & -> & _).
    unfold source_of. simpl. rewrite lookup_insert_ne by discriminate. by rewrite lookup_singleton_eq.
  - unfold text_load. destruct (f_utf8 f); intros H; simplify_eq.
    intros Hd. apply list_elem_of_singleton in Hd as ->.
    unfold source_of. simpl. by rewrite lookup_singleton_eq.
Qed.

Lemma directory_load_spec ext cls files docs :
  directory_load data_path sep ext cls files = Ok docs ->
  length docs = sum_list (map (doc_count cls) (filter (selected ext) files))
  /\ forall d, d ∈ docs -> exists f, f ∈ files /\ selected ext f = true
                          /\ source_of d = Some (MStr (str_path data_path sep f)).
Proof.
  revert docs. induction files as [|f r IH]; intros docs H; simpl in H.
  - injection H as <-. split; [done|]. intros d Hd. by apply elem_of_nil in Hd.
  - rewrite filter_cons. destruct (selected ext f) eqn:Hs.
    + inv_binds. destruct (IH _ Hc0) as [Hlen Hin]. split.
      * rewrite length_app, (loader_load_count _ _ _ Hc), Hlen. done.
      * intros d Hd. apply elem_of_app in Hd as [Hd|Hd].
        -- exists f. split_and!; [left|done|]. by eapply loader_load_source.
        -- destruct (Hin d Hd) as (f' & ? & ? & ?). exists f'. split_and!; [by right|done|done].
    + destruct (IH _ H) as [Hlen Hin]. split; [done|].
      intros d Hd. destruct (Hin d Hd) as (f' & ? & ? & ?). exists f'. split_and!; [by right|done|done].
Qed.

Lemma directory_load_err ext cls files f :
  f ∈ files -> selected ext f = true -> is_ok (loader_load data_path sep cls f) = false ->
  is_ok (directory_load data_path sep ext cls files) = false.
Proof.
  intros Hf Hs He. rewrite directory_load_map.
  assert (Hr : is_ok (result_map (loader_load data_path sep cls) (filter (selected ext) files)) = false).
  { apply (result_map_Err _ _ f); [|done]. apply list_elem_of_filter. by rewrite Hs. }
  destruct (result_map _ _); simpl in *; congruence.
Qed.

Lemma filter_selected_supported ext (files : list file) :
  ext = ".pdf"%string \/ ext = ".txt"%string \/ ext = ".md"%string ->
  filter (selected ext) (filter supported files) = filter (selected ext) files.
Proof.
  intros Hext. rewrite list_filter_filter. apply list_filter_iff. intros f.
  split; [tauto|]. intros Hs. split; [done|]. unfold supported.
  destruct Hext as [->|[->| ->]]; apply Is_true_true in Hs; rewrite Hs; by rewrite ?orb_true_r.
Qed.

Lemma is_visible_hidden f : is_visible f = negb (hidden f).
Proof.
  unfold is_visible, hidden. induction (f_parts f) as [|p ps IH]; [done|]. simpl.
  rewrite IH. by destruct (String.prefix "." p).
Qed.

(** A name that ends with [ext] has the last character of [ext]. *)
Lemma ends_with_last ext s :
  ends_with ext s = true -> 0 < String.length ext ->
  String.get (String.length s - 1) s = String.get (String.length ext - 1) ext.
Proof.
  unfold ends_with. intros H Hpos. apply andb_true_iff in H as [Hle Heq].
  apply Nat.leb_le in Hle. apply String.eqb_eq in Heq.
  pose proof (f_equal (String.get (String.length ext - 1)) Heq) as Hg.
  rewrite substring_correct1 in Hg by lia. rewrite <- Hg. f_equal. lia.
Qed.

(** So a name matches at most one of the three globs. *)
Lemma glob_match_last e1 e2 f :
  glob_match e1 f = true -> glob_match e2 f = true ->
  0 < String.length e1 -> 0 < String.length e2 ->
  String.get (String.length e1 - 1) e1 = String.get (String.length e2 - 1) e2.
Proof.
  unfold glob_match. destruct (last (f_parts f)) as [name|]; [|done].
  intros H1 H2 P1 P2. by rewrite <- (ends_with_last _ _ H1 P1), <- (ends_with_last _ _ H2 P2).
Qed.

Lemma glob_match_excl e1 e2 f :
  String.get (String.length e1 - 1) e1 <> String.get (String.length e2 - 1) e2 ->
  0 < String.length e1 -> 0 < String.length e2 ->
  glob_match e1 f = true -> glob_match e2 f = false.
Proof.
  intros Hne P1 P2 H1. destruct (glob_match e2 f) eqn:H2; [|done].
  exfalso. by apply Hne, (glob_match_last _ _ f).
Qed.

Lemma filter_selected_loadable ext (files : list file) :
  ext = ".pdf"%string \/ ext = ".txt"%string \/ ext = ".md"%string ->
  filter (selected ext) (filter loadable files) = filter (selected ext) files.
Proof.
  intros Hext. rewrite list_filter_filter. apply list_filter_iff. intros f.
  split; [tauto|]. intros Hs. split; [done|]. unfold loadable, selected in *.
  rewrite is_visible_hidden in Hs. apply Is_true_true in Hs. apply andb_true_iff in Hs as [Hg ->].
  destruct Hext as [->|[->| ->]]; rewrite Hg; by rewrite ?orb_true_r.
Qed.

(** C7: [load_documents] returns, when it succeeds, one document per
    page of each selected PDF plus one per selected [.txt] and [.md]
    file, and every document's [source] is the path of a visible file
    with one of the three extensions. *)
Theorem load_documents_spec (files : list file) docs :
  load_documents data_path sep (DirFiles files) = Ok docs ->
  length docs = sum_list (map (doc_count PyPDFLoader) (filter (selected ".pdf") files))
                + length (filter (selected ".txt") files)
                + length (filter (selected ".md") files)
  /\ forall d, d ∈ docs -> exists f, f ∈ files /\ supported f = true
                          /\ source_of d = Some (MStr (str_path data_path sep f)).
Proof.
  unfold load_documents. cbn [fst snd pdf_loader txt_loader markdown_loader directory_load_at]. intros H. inv_binds.
  destruct (directory_load_spec _ _ _ _ Hc) as [L1 I1].
  destruct (directory_load_spec _ _ _ _ Hc0) as [L2 I2].
  destruct (directory_load_spec _ _ _ _ Hc1) as [L3 I3].
  split.
  - rewrite !length_app, L1, L2, L3. simpl.
    rewrite !sum_list_text. lia.
  - intros d Hd. unfold supported.
    repeat rewrite elem_of_app in Hd.
    destruct Hd as [Hd|[Hd|Hd]];
      [destruct (I1 d Hd) as (f & ? & Hs & ?)|destruct (I2 d Hd) as (f & ? & Hs & ?)
      |destruct (I3 d Hd) as (f & ? & Hs & ?)];
      exists f; rewrite Hs; by rewrite ?orb_true_r.
Qed.

(** C12: one file that cannot be read loses the whole corpus: if a
    selected PDF cannot be parsed, or a selected [.txt] or [.md] file
    is not UTF-8, [load_documents] raises, however many good files
    there are. The spec asks for skip-and-continue. *)
Theorem bad_file_aborts_load (files : list file) f :
  f ∈ files ->
  (selected ".pdf" f = true /\ f_pdf f = None)
  \/ ((selected ".txt" f = true \/ selected ".md" f = true) /\ f_utf8 f = None) ->
  is_ok (load_documents data_path sep (DirFiles files)) = false.
Proof.
  intros Hf Hbad. unfold load_documents. cbn [fst snd pdf_loader txt_loader markdown_loader directory_load_at].
  destruct (directory_load _ _ ".pdf" _ _) as [pdf|e] eqn:E1; [|done].
  destruct Hbad as [[Hs Hp]|[Hs Hu]].
  - pose proof (directory_load_err ".pdf" PyPDFLoader files f Hf Hs) as He.
    rewrite E1 in He. simpl in He. unfold pdf_load in He. rewrite Hp in He. exfalso. by apply diff_true_false, He.
  - simpl. destruct (directory_load _ _ ".txt" _ _) as [txt|e] eqn:E2; simpl; [|done].
    destruct (directory_load _ _ ".md" _ _) as [md|e] eqn:E3; simpl; [|done].
    destruct Hs as [Hs|Hs];
      [pose proof (directory_load_err ".txt" TextLoader files f Hf Hs) as He; rewrite E2 in He
      |pose proof (directory_load_err ".md" TextLoader files f Hf Hs) as He; rewrite E3 in He];
      simpl in He; unfold text_load in He; rewrite Hu in He; exfalso; by apply diff_true_false, He.
Qed.

(** C20: [load_documents] loads exactly the files [DirectoryLoader]
    documents, each with its loader. Files under a dot-directory, dot
    files and files whose name matches none of the three globs make no
    difference to the result; and a single visible [.pdf], [.txt] or
    [.md] file gives exactly what [PyPDFLoader], respectively
    [TextLoader], makes of it. *)
Theorem unsupported_files_skipped (files : list file) :
  load_documents data_path sep (DirFiles files)
  = load_documents data_path sep (DirFiles (filter loadable files))
  /\ forall f, loadable f = true ->
       load_documents data_path sep (DirFiles [f]) = loader_load data_path sep (loader_of f) f.
Proof.
  split.
  - unfold load_documents. cbn [fst snd pdf_loader txt_loader markdown_loader directory_load_at].
    rewrite !directory_load_map. rewrite !filter_selected_loadable; auto.
  - intros f Hf. unfold loadable in Hf. apply andb_true_iff in Hf as [Hv Hg].
    unfold load_documents, loader_of.
    cbn [fst snd pdf_loader txt_loader markdown_loader directory_load_at directory_load].
    unfold selected. rewrite is_visible_hidden, Hv, !andb_true_r.
    destruct (glob_match ".pdf" f) eqn:Ep; [|destruct (glob_match ".txt" f) eqn:Et].
    + rewrite (glob_match_excl ".pdf" ".txt" f), (glob_match_excl ".pdf" ".md" f)
        by (done || (vm_compute; congruence) || (simpl; lia)).
      destruct (loader_load _ _ PyPDFLoader f); simpl; by rewrite ?app_nil_r.
    + rewrite (glob_match_excl ".txt" ".md" f)
        by (done || (vm_compute; congruence) || (simpl; lia)).
      destruct (loader_load _ _ TextLoader f); simpl; by rewrite ?app_nil_r.
    + simpl in Hg. rewrite Hg.
      destruct (loader_load _ _ TextLoader f); simpl; by rewrite ?app_nil_r.
Qed.

End Proofs.

(** *** Witnesses, on a two-file directory *)

Lemma load_documents_spec_witness :
  length [mkDocument (lit "Closed on Fridays.")
            {["source"%string := MStr (str_path "data" "/" good_txt)]} None]
  = sum_list (map (doc_count PyPDFLoader) (filter (selected ".pdf") [good_txt]))
    + length (filter (selected ".txt") [good_txt])
    + length (filter (selected ".md") [good_txt])
  /\ forall d, d ∈ [mkDocument (lit "Closed on Fridays.")
                      {["source"%string := MStr (str_path "data" "/" good_txt)]} None] ->
       exists f, f ∈ [good_txt] /\ supported f = true
                 /\ source_of d = Some (MStr (str_path "data" "/" f)).
Proof. apply load_documents_spec. vm_compute. reflexivity. Defined.

Lemma bad_file_aborts_load_witness :
  is_ok (load_documents "data" "/" (DirFiles [good_txt; bad_txt])) = false.
Proof.
  apply (bad_file_aborts_load "data" "/" [good_txt; bad_txt] bad_txt).
  - right. left.
  - right. split; [left; reflexivity|reflexivity].
Defined.

End LoaderSpec.
