(* ===== verification/Splitter.v ===== *)
(** * Splitter: [RecursiveCharacterTextSplitter] and [split_text]

    [TextSplitter] holds the configuration and the two loops. The
    constructor checks the sizes. [_merge_splits] greedily packs pieces
    into windows, and its inner [while] loop drops pieces from the
    front until at most [chunk_overlap] characters are carried into
    the next window. [RecursiveCharacterTextSplitter._split_text]
    picks the first separator that occurs in the text and cuts the
    text on it, keeping the separator at the start of the next piece.
    It merges the short pieces and recurses into the long ones with
    the remaining separators.
    [RagProject.split_text] is the function of [Rag_project.py]
    (lines 129-142) that configures the splitter with 1000/200 and
    calls [split_documents]. *)

From S2P Require Import Prelude.

Module TextSplitter.

(** The splitter's configuration. [separators] and [keep_separator]
    are the defaults of [RecursiveCharacterTextSplitter]; the source
    passes [is_separator_regex=False], so every separator is a
    literal. *)
Record splitter := mkSplitter {
  chunk_size : Z;
  chunk_overlap : Z;
  separators : list pystr;
  keep_separator : bool
}.

(** [["\n\n", "\n", " ", ""]] *)
Definition default_separators : list pystr := [[10; 10]; [10]; [32]; []]%N.

(** [TextSplitter.__init__] with the checks it performs, then the
    defaults of [RecursiveCharacterTextSplitter.__init__]. *)
Definition make_splitter (cs ov : Z) : result splitter :=
  if (cs <=? 0)%Z then Err (ValueError "chunk_size must be > 0")
  else if (ov <? 0)%Z then Err (ValueError "chunk_overlap must be >= 0")
  else if (cs <? ov)%Z then Err (ValueError "Got a larger chunk overlap than chunk size")
  else Ok (mkSplitter cs ov default_separators true).

(** ** Literal [re.split] *)

(** The leftmost occurrence of a non-empty literal [sep] in [s]:
    [Some (before, after)] with [s = before ++ sep ++ after]. *)
Fixpoint break_at (sep s : pystr) : option (pystr * pystr) :=
  if py_startswith s sep then Some ([], drop (length sep) s)
  else match s with
       | [] => None
       | c :: s' =>
           match break_at sep s' with
           | Some (a, b) => Some (c :: a, b)
           | None => None
           end
       end.

(** [re.split(p, s)] for the escaped literal [p = sep]; with
    [cap = true] the pattern is the capturing group [(sep)], so each
    occurrence is returned between the pieces it separates. *)
Fixpoint re_split_fuel (fuel : nat) (cap : bool) (sep s : pystr) : list pystr :=
  match fuel with
  | O => [s]
  | S n =>
      match break_at sep s with
      | None => [s]
      | Some (a, b) => a :: (if cap then sep :: re_split_fuel n cap sep b
                             else re_split_fuel n cap sep b)
      end
  end.

Definition re_split (cap : bool) (sep s : pystr) : list pystr :=
  re_split_fuel (S (length s)) cap sep s.

(** [[_splits[i] + _splits[i + 1] for i in range(1, len(_splits), 2)]]
    applied to [_splits[1:]]. *)
Fixpoint pair_up (l : list pystr) : list pystr :=
  match l with
  | a :: b :: r => (a ++ b) :: pair_up r
  | _ => []
  end.

Definition nonempty (s : pystr) : bool := negb (bool_decide (s = [])).

(** [_split_text_with_regex(text, separator, keep_separator)] for
    [keep_separator] in [{True, False}] (the value [True] keeps the
    separator at the start of the next piece). *)
Definition split_text_with_regex (text sep : pystr) (keep : bool) : list pystr :=
  let splits :=
    match sep with
    | [] => map (fun c => [c]) text
    | _ :: _ =>
        if keep then
          let ps := re_split true sep text in
          let joined := pair_up (tail ps) in
          let joined := if Nat.even (length ps) then joined ++ option_list (last ps)
                        else joined in
          take 1 ps ++ joined
        else re_split false sep text
    end in
  filter nonempty splits.

(** ** [_merge_splits] *)

(** [_join_docs(docs, separator)] with [strip_whitespace=True]. *)
Definition join_docs (docs : list pystr) (sep : pystr) : option pystr :=
  let text := py_strip (py_join sep docs) in
  if bool_decide (text = []) then None else Some text.

(** The local variables of [_merge_splits]: the emitted [docs], the
    window [current_doc] and its length [total]. *)
Record merge_state := mkMerge {
  m_docs : list pystr;
  m_cur : list pystr;
  m_total : Z
}.

Section Merge.
Context (cfg : splitter) (sep : pystr).

(** The [while] loop: drop the first piece of the window while the
    window is longer than the overlap, or while the next piece would
    not fit. [current_doc[0]] on an empty window raises [IndexError]. *)
Fixpoint drop_front (total len_d : Z) (cur : list pystr) : result (Z * list pystr) :=
  if ((chunk_overlap cfg <? total)
      || ((chunk_size cfg <? total + len_d + (if cur is [] then 0 else zlen sep))
          && (0 <? total)))%Z
  then match cur with
       | [] => Err IndexError
       | x :: rest =>
           drop_front (total - (zlen x + (if rest is [] then 0 else zlen sep))) len_d rest
       end
  else Ok (total, cur).

(** One iteration of [for d in splits]. *)
Definition merge_step (st : merge_state) (d : pystr) : result merge_state :=
  let len_d := zlen d in
  st' <- (if (chunk_size cfg <? m_total st + len_d
                                  + (if m_cur st is [] then 0 else zlen sep))%Z
              && negb (bool_decide (m_cur st = []))
          then let docs' := m_docs st ++ option_list (join_docs (m_cur st) sep) in
               p <- drop_front (m_total st) len_d (m_cur st) ;;
               Ok (mkMerge docs' p.2 p.1)
          else Ok st) ;;
  Ok (mkMerge (m_docs st') (m_cur st' ++ [d])
              (m_total st' + len_d + (if m_cur st' is [] then 0 else zlen sep))).

Fixpoint merge_loop (st : merge_state) (splits : list pystr) : result merge_state :=
  match splits with
  | [] => Ok st
  | d :: rest => st' <- merge_step st d ;; merge_loop st' rest
  end.

Definition merge_splits (splits : list pystr) : result (list pystr) :=
  st <- merge_loop (mkMerge [] [] 0) splits ;;
  Ok (m_docs st ++ option_list (join_docs (m_cur st) sep)).

End Merge.

(** ** [RecursiveCharacterTextSplitter._split_text] *)

Section Split.
Context (cfg : splitter).

(** [if _good_splits: final_chunks.extend(self._merge_splits(...))] *)
Definition flush (merge_sep : pystr) (final good : list pystr) : result (list pystr) :=
  if good is [] then Ok final
  else m <- merge_splits cfg merge_sep good ;; Ok (final ++ m).

(** The [for s in splits] loop of [_split_text]. [recurse] is [None]
    when [new_separators] is empty: a long piece is then emitted as it
    is. *)
Fixpoint split_loop (merge_sep : pystr) (recurse : option (pystr -> result (list pystr)))
    (final good : list pystr) (splits : list pystr) : result (list pystr) :=
  match splits with
  | [] => flush merge_sep final good
  | s :: rest =>
      if (zlen s <? chunk_size cfg)%Z
      then split_loop merge_sep recurse final (good ++ [s]) rest
      else
        final1 <- flush merge_sep final good ;;
        more <- (match recurse with None => Ok [s] | Some r => r s end) ;;
        split_loop merge_sep recurse (final1 ++ more) [] rest
  end.

(** The body of [_split_text] once the separator is chosen. *)
Definition split_with (text sep : pystr)
    (recurse : option (pystr -> result (list pystr))) : result (list pystr) :=
  let splits := split_text_with_regex text sep (keep_separator cfg) in
  let merge_sep := if keep_separator cfg then [] else sep in
  split_loop merge_sep recurse [] [] splits.

(** [_split_text(text, separators)]. The [for i, _s in
    enumerate(separators)] search is the walk down [seps]; [lastsep]
    is [separators[-1]] of the list the call received, used when no
    separator occurs. The recursive call on a long piece gets
    [separators[i + 1:]], a suffix of [seps]. *)
Fixpoint split_text_rec (lastsep : pystr) (seps : list pystr) (text : pystr)
    {struct seps} : result (list pystr) :=
  match seps with
  | [] => split_with text lastsep None
  | s :: rest =>
      if bool_decide (s = []) then split_with text [] None
      else if py_contains text s then
        split_with text s
          (if rest is [] then None else Some (split_text_rec (List.last rest []) rest))
      else split_text_rec lastsep rest text
  end.

(** [split_text(text)]: [self._separators[-1]] raises on an empty
    separator list. *)
Definition split_text (text : pystr) : result (list pystr) :=
  match separators cfg with
  | [] => Err IndexError
  | seps => split_text_rec (List.last seps []) seps text
  end.

(** [split_documents] through [create_documents]: every chunk gets a
    copy of its document's metadata ([add_start_index=False], no id). *)
Fixpoint split_documents (docs : list Document) : result (list Document) :=
  match docs with
  | [] => Ok []
  | d :: rest =>
      chunks <- split_text (page_content d) ;;
      more <- split_documents rest ;;
      Ok (map (fun c => mkDocument c (metadata d) None) chunks ++ more)
  end.

End Split.

End TextSplitter.

(** ** The source's [split_text] *)

Module RagProject.
Import TextSplitter.

(** [split_text(documents)], [Rag_project.py] lines 129-142. *)
Definition split_text (documents : list Document) : result (list Document) :=
  text_splitter <- make_splitter 1000 200 ;;
  split_documents text_splitter documents.

End RagProject.

(** ** Properties of the splitter *)

Module SplitterSpec.
Import TextSplitter.

(** *** [re.split] on a literal *)

Lemma break_at_spec sep s a b :
  sep <> [] -> break_at sep s = Some (a, b) -> s = a ++ sep ++ b.
Proof.
  intros Hsep. revert a b. induction s as [|c s IH]; intros a b H; simpl in H.
  - destruct sep; [done|]. simpl in H. discriminate.
  - destruct (py_startswith (c :: s) sep) eqn:E.
    + apply py_startswith_spec in E as [r Hr]. injection H as <- <-.
      rewrite Hr, drop_app_length. done.
    + destruct (break_at sep s) as [[a' b']|] eqn:Eb; [|discriminate].
      injection H as <- <-. simpl. f_equal. by apply IH.
Qed.

Lemma break_at_shorter sep s a b :
  sep <> [] -> break_at sep s = Some (a, b) -> length b < length s.
Proof.
  intros Hsep H. apply break_at_spec in H; [|done]. subst s.
  rewrite !length_app. destruct sep; [done|]. simpl. lia.
Qed.

Lemma re_split_fuel_concat n sep s :
  sep <> [] -> concat (re_split_fuel n true sep s) = s.
Proof.
  intros Hsep. revert s. induction n as [|n IH]; intros s; simpl; [by rewrite app_nil_r|].
  destruct (break_at sep s) as [[a b]|] eqn:E; simpl; [|by rewrite app_nil_r].
  rewrite IH. symmetry. by apply break_at_spec.
Qed.

Lemma re_split_fuel_odd n sep s :
  exists p0 rest, re_split_fuel n true sep s = p0 :: rest /\ Nat.Even (length rest).
Proof.
  revert s. induction n as [|n IH]; intros s; simpl.
  - exists s, []. split; [done|]. exists 0. done.
  - destruct (break_at sep s) as [[a b]|].
    + destruct (IH b) as (p0 & rest & -> & [k Hk]).
      eexists _, _. split; [done|]. exists (S k). simpl. lia.
    + exists s, []. split; [done|]. exists 0. done.
Qed.

Lemma pair_up_concat (l : list pystr) : Nat.Even (length l) -> concat (pair_up l) = concat l.
Proof.
  induction l as [l IH] using (induction_ltof1 _ (@length _)); unfold ltof in IH.
  destruct l as [|a [|b r]]; intros Hev; simpl; [done| |].
  - destruct Hev as [k Hk]. simpl in Hk. lia.
  - rewrite IH; [by rewrite app_assoc | simpl; lia |].
    destruct Hev as [k Hk]. exists (k - 1). simpl in Hk. lia.
Qed.

(** Cutting a text on a separator and keeping the separator at the
    start of the next piece loses nothing: the pieces concatenate back
    to the text, for every separator including the empty one. *)
Theorem split_text_with_regex_concat text sep :
  concat (split_text_with_regex text sep true) = text.
Proof.
  unfold split_text_with_regex, nonempty. rewrite concat_filter_nonempty.
  destruct sep as [|c sep'].
  - induction text as [|x r IH]; simpl; [done|]. by rewrite IH.
  - unfold re_split.
    destruct (re_split_fuel_odd (S (length text)) (c :: sep') text)
      as (p0 & rest & E & Hev).
    assert (Hodd : Nat.even (length (p0 :: rest)) = false).
    { change (length (p0 :: rest)) with (S (length rest)).
      rewrite Nat.even_succ, <- Nat.negb_even.
      by rewrite (proj2 (Nat.even_spec _) Hev). }
    rewrite E, Hodd. simpl. rewrite pair_up_concat by done.
    rewrite <- (re_split_fuel_concat (S (length text)) (c :: sep') text) by done.
    by rewrite E.
Qed.

Lemma re_split_fuel_stable n m cap sep s :
  sep <> [] -> length s < n -> length s < m ->
  re_split_fuel n cap sep s = re_split_fuel m cap sep s.
Proof.
  intros Hsep. revert m s. induction n as [|n IH]; intros m s Hn Hm; [lia|].
  destruct m as [|m]; [lia|]. simpl.
  destruct (break_at sep s) as [[a b]|] eqn:E; [|done].
  pose proof (break_at_shorter _ _ _ _ Hsep E).
  rewrite (IH m b) by lia. done.
Qed.

(** The fuel [S (length text)] of [re_split] is enough: any larger
    fuel gives the same pieces, so the loop always runs to the end of
    the text. *)
Theorem re_split_fuel_enough n cap sep s :
  sep <> [] -> length s < n -> re_split_fuel n cap sep s = re_split cap sep s.
Proof. intros. apply re_split_fuel_stable; auto. Qed.

(** *** [_merge_splits] *)

Lemma zlen_join_cons sep x rest :
  zlen (py_join sep (x :: rest)) =
  (zlen x + (if rest is [] then 0 else zlen sep) + zlen (py_join sep rest))%Z.
Proof. destruct rest; simpl; rewrite ?zlen_app; simpl; unfold zlen; simpl; lia. Qed.

Lemma zlen_join_snoc sep xs x :
  zlen (py_join sep (xs ++ [x])) =
  (zlen (py_join sep xs) + (if xs is [] then 0 else zlen sep) + zlen x)%Z.
Proof. rewrite py_join_snoc. destruct xs; rewrite ?zlen_app; simpl; unfold zlen; simpl; lia. Qed.

Lemma join_zero_nil sep xs :
  Forall (fun c => c <> []) xs -> zlen (py_join sep xs) = 0%Z -> xs = [].
Proof.
  intros Hne Hz. destruct xs as [|x r]; [done|]. exfalso.
  inversion Hne as [|? ? Hx _]; subst.
  rewrite zlen_join_cons in Hz. destruct x; [done|].
  pose proof (zlen_nonneg (py_join sep r)). pose proof (zlen_nonneg sep).
  unfold zlen in *; simpl in *. destruct r; lia.
Qed.

Lemma join_docs_shorter xs sep c :
  join_docs xs sep = Some c -> (zlen c <= zlen (py_join sep xs))%Z.
Proof.
  unfold join_docs. case_bool_decide; intros Hc; simplify_eq.
  unfold zlen. pose proof (py_strip_length (py_join sep xs)). lia.
Qed.

Section MergeProofs.
Context (cfg : splitter) (sep : pystr).
Hypothesis Hov : (0 <= chunk_overlap cfg)%Z.
Hypothesis Hcs : (0 <= chunk_size cfg)%Z.

(** The [while] loop stops on a suffix of the window whose length is
    at most the overlap and which leaves room for the next piece, unless
    it is empty. Its counter [total] stays the window's length. *)
Lemma drop_front_spec len_d cur :
  exists pre cur',
    drop_front cfg sep (zlen (py_join sep cur)) len_d cur
      = Ok (zlen (py_join sep cur'), cur')
    /\ cur = pre ++ cur'
    /\ (zlen (py_join sep cur') <= chunk_overlap cfg)%Z
    /\ ((zlen (py_join sep cur') + len_d + (if cur' is [] then 0 else zlen sep)
           <= chunk_size cfg)%Z
        \/ zlen (py_join sep cur') = 0%Z).
Proof.
  induction cur as [|x rest IH].
  - exists [], []. simpl. rewrite andb_false_r, orb_false_r.
    change (zlen (@nil N)) with 0%Z.
    replace ((chunk_overlap cfg <? 0)%Z) with false by lia.
    split; [done|]. split; [done|]. split; [lia|by right].
  - destruct IH as (pre & cur' & Hd & -> & Hle & Hfit).
    cbn [drop_front]. destruct (_ || _)%Z eqn:C.
    + exists (x :: pre), cur'. split; [|done].
      rewrite <- Hd. f_equal. rewrite zlen_join_cons. destruct (pre ++ cur'); lia.
    + exists [], (x :: pre ++ cur'). split; [done|]. split; [done|].
      apply orb_false_iff in C as [C1 C2]. apply andb_false_iff in C2.
      pose proof (zlen_nonneg (py_join sep (x :: pre ++ cur'))).
      cbv iota beta. split; [lia|]. destruct C2; [left|right]; lia.
Qed.

Lemma merge_step_ok st d :
  m_total st = zlen (py_join sep (m_cur st)) ->
  exists st', merge_step cfg sep st d = Ok st'
              /\ m_total st' = zlen (py_join sep (m_cur st')).
Proof.
  destruct st as [docs cur total]; simpl. intros ->. unfold merge_step; simpl.
  destruct (_ && _).
  - destruct (drop_front_spec (zlen d) cur) as (pre & cur' & -> & _). simpl.
    eexists. split; [reflexivity|]. simpl. rewrite zlen_join_snoc. destruct cur'; lia.
  - eexists. split; [reflexivity|]. simpl. rewrite zlen_join_snoc. destruct cur; lia.
Qed.

Lemma merge_loop_ok st splits :
  m_total st = zlen (py_join sep (m_cur st)) ->
  exists st', merge_loop cfg sep st splits = Ok st'.
Proof.
  revert st. induction splits as [|d r IH]; intros st Hst; simpl; [eauto|].
  destruct (merge_step_ok st d Hst) as (st' & -> & Hst'). simpl. auto.
Qed.

(** The invariant of the bound: emitted chunks fit, the window fits,
    [total] is the window's length and the window has no empty piece. *)
Lemma merge_step_bounded st d st' :
  m_total st = zlen (py_join sep (m_cur st)) ->
  (m_total st <= chunk_size cfg)%Z ->
  Forall (fun c => zlen c <= chunk_size cfg)%Z (m_docs st) ->
  Forall (fun c => c <> []) (m_cur st) ->
  d <> [] -> (zlen d <= chunk_size cfg)%Z ->
  merge_step cfg sep st d = Ok st' ->
  m_total st' = zlen (py_join sep (m_cur st'))
  /\ (m_total st' <= chunk_size cfg)%Z
  /\ Forall (fun c => zlen c <= chunk_size cfg)%Z (m_docs st')
  /\ Forall (fun c => c <> []) (m_cur st').
Proof.
  destruct st as [docs cur total]; simpl. intros -> Htot Hdocs Hne Hd Hdl.
  unfold merge_step; simpl.
  pose proof (zlen_nonneg sep).
  destruct (_ && _) eqn:C.
  - destruct (drop_front_spec (zlen d) cur) as (pre & cur' & -> & -> & _ & Hfit).
    simpl. intros [= <-]. simpl. rewrite zlen_join_snoc.
    apply Forall_app in Hne as [_ Hne'].
    split; [destruct cur'; lia|]. split.
    + destruct Hfit as [Hfit | Hz]; [lia|].
      rewrite (join_zero_nil sep cur' Hne' Hz). unfold zlen in *. simpl. lia.
    + split; [|apply Forall_app; auto].
      apply Forall_app. split; [done|].
      destruct (join_docs _ _) as [c|] eqn:Ej; simpl; [|done].
      apply join_docs_shorter in Ej. constructor; [lia|done].
  - intros [= <-]. simpl. rewrite zlen_join_snoc.
    split; [destruct cur; lia|]. split; [|split; [done|apply Forall_app; auto]].
    apply andb_false_iff in C as [C | C].
    + destruct cur; lia.
    + apply negb_false_iff in C. case_bool_decide; [subst|done].
      unfold zlen in *. simpl. lia.
Qed.

Lemma merge_loop_bounded st splits st' :
  m_total st = zlen (py_join sep (m_cur st)) ->
  (m_total st <= chunk_size cfg)%Z ->
  Forall (fun c => zlen c <= chunk_size cfg)%Z (m_docs st) ->
  Forall (fun c => c <> []) (m_cur st) ->
  Forall (fun s => s <> [] /\ zlen s <= chunk_size cfg)%Z splits ->
  merge_loop cfg sep st splits = Ok st' ->
  (m_total st' <= chunk_size cfg)%Z
  /\ m_total st' = zlen (py_join sep (m_cur st'))
  /\ Forall (fun c => zlen c <= chunk_size cfg)%Z (m_docs st').
Proof.
  revert st. induction splits as [|d r IH]; intros st H1 H2 H3 H4 Hs Hl; simpl in Hl.
  - by injection Hl as <-.
  - inv_bind Hl. inversion Hs as [|? ? [Hd Hdl] Hr]; subst.
    destruct (merge_step_bounded _ _ _ H1 H2 H3 H4 Hd Hdl Hc) as (? & ? & ? & ?).
    eapply IH; eauto.
Qed.

(** [_merge_splits] never raises: with a non-negative
    [chunk_overlap] the [while] loop stops before the window is empty,
    so [current_doc[0]] is never evaluated on an empty list. *)
Theorem merge_splits_ok splits :
  exists out, merge_splits cfg sep splits = Ok out.
Proof.
  unfold merge_splits.
  destruct (merge_loop_ok (mkMerge [] [] 0) splits) as [st ->]; [done|].
  simpl. eauto.
Qed.

(** Every chunk [_merge_splits] emits is at most [chunk_size]
    long, when every piece it packs is non-empty and fits. *)
Theorem merge_splits_bounded splits out :
  Forall (fun s => s <> [] /\ zlen s <= chunk_size cfg)%Z splits ->
  merge_splits cfg sep splits = Ok out ->
  Forall (fun c => zlen c <= chunk_size cfg)%Z out.
Proof.
  intros Hs Hm. unfold merge_splits in Hm. inv_bind Hm.
  injection Hk as <-.
  destruct (merge_loop_bounded (mkMerge [] [] 0) splits a) as (Hle & Heq & Hdocs);
    [reflexivity|exact Hcs|constructor|constructor|exact Hs|exact Hc|].
  apply Forall_app. split; [done|].
  destruct (join_docs _ _) as [c|] eqn:Ej; simpl; [|done].
  apply join_docs_shorter in Ej. constructor; [lia|done].
Qed.

End MergeProofs.

(** *** [_split_text] *)

Lemma split_text_with_regex_nonempty text sep keep :
  Forall (fun s => s <> []) (split_text_with_regex text sep keep).
Proof.
  unfold split_text_with_regex.
  eapply Forall_impl; [apply Forall_filter_true|].
  intros s. unfold nonempty. case_bool_decide; done.
Qed.

Lemma split_text_with_regex_chars text keep :
  Forall (fun s => length s = 1) (split_text_with_regex text [] keep).
Proof.
  unfold split_text_with_regex. apply Forall_filter_weaken.
  induction text; simpl; constructor; auto.
Qed.

Section SplitProofs.
Context (cfg : splitter).
Hypothesis Hov : (0 <= chunk_overlap cfg)%Z.
Hypothesis Hcs : (1 <= chunk_size cfg)%Z.

Let bounded (c : pystr) : Prop := (zlen c <= chunk_size cfg)%Z.

Lemma flush_bounded merge_sep final good :
  Forall bounded final ->
  Forall (fun s => s <> [] /\ zlen s <= chunk_size cfg)%Z good ->
  exists out, flush cfg merge_sep final good = Ok out /\ Forall bounded out.
Proof.
  intros Hf Hg. unfold flush. destruct good as [|g gs]; [eauto|].
  destruct (merge_splits_ok cfg merge_sep Hov (g :: gs)) as [m Hm].
  rewrite Hm. simpl. eexists. split; [done|].
  apply Forall_app. split; [done|].
  eapply merge_splits_bounded; eauto with lia.
Qed.

Lemma split_loop_bounded merge_sep recurse splits : forall final good,
  Forall bounded final ->
  Forall (fun s => s <> [] /\ zlen s <= chunk_size cfg)%Z good ->
  Forall (fun s => s <> []) splits ->
  (forall s, In s splits -> (chunk_size cfg <= zlen s)%Z ->
     match recurse with
     | None => bounded s
     | Some r => exists out, r s = Ok out /\ Forall bounded out
     end) ->
  exists out, split_loop cfg merge_sep recurse final good splits = Ok out
              /\ Forall bounded out.
Proof.
  induction splits as [|s rest IH]; intros final good Hf Hg Hne Hrec; simpl.
  - by apply flush_bounded.
  - inversion Hne as [|? ? Hs Hrest]; subst.
    destruct (zlen s <? chunk_size cfg)%Z eqn:Hlt.
    + apply IH; [done| |done|intros p Hp; apply Hrec; by right].
      apply Forall_app. split; [done|].
      constructor; [split; [done|lia]|constructor].
    + destruct (flush_bounded merge_sep final good Hf Hg) as (f1 & -> & Hf1). simpl.
      assert (Hmore : exists more,
                 match recurse with None => Ok [s] | Some r => r s end = Ok more
                 /\ Forall bounded more).
      { specialize (Hrec s (or_introl eq_refl) ltac:(lia)).
        destruct recurse; [done|]. eexists. split; [done|]. by constructor. }
      destruct Hmore as (more & -> & Hmore). simpl.
      apply IH; [apply Forall_app; auto|constructor|done|intros p Hp; apply Hrec; by right].
Qed.

Lemma split_with_bounded text sep recurse :
  (forall s, (chunk_size cfg <= zlen s)%Z ->
     In s (split_text_with_regex text sep (keep_separator cfg)) ->
     match recurse with
     | None => bounded s
     | Some r => exists out, r s = Ok out /\ Forall bounded out
     end) ->
  exists out, split_with cfg text sep recurse = Ok out /\ Forall bounded out.
Proof.
  intros H. unfold split_with.
  apply split_loop_bounded;
    [constructor|constructor|apply split_text_with_regex_nonempty|].
  intros s Hs Hle. by apply H.
Qed.

(** With the empty separator every piece is one character, which fits
    because [chunk_size >= 1]. *)
Lemma split_with_chars_bounded text :
  exists out, split_with cfg text [] None = Ok out /\ Forall bounded out.
Proof.
  apply split_with_bounded. intros s _ Hin.
  pose proof (proj1 (List.Forall_forall _ _) (split_text_with_regex_chars text _) s Hin).
  cbn in *. unfold bounded, zlen. lia.
Qed.

Lemma split_text_rec_bounded seps : forall lastsep text,
  In [] seps ->
  exists out, split_text_rec cfg lastsep seps text = Ok out /\ Forall bounded out.
Proof.
  induction seps as [|s rest IH]; intros lastsep text Hin; [done|]. simpl.
  case_bool_decide as Hs; [apply split_with_chars_bounded|].
  assert (Hrest : In [] rest) by (destruct Hin; [congruence|done]).
  destruct (py_contains text s); [|by apply IH].
  destruct rest as [|r rs]; [done|].
  apply split_with_bounded. intros p _ _. apply IH. exact Hrest.
Qed.

(** Hard upper bound on chunk size: for every configuration the
    constructor accepts and every separator list containing [""],
    [split_text] returns (it raises nothing) and every chunk it returns
    is at most [chunk_size] characters long. *)
Theorem split_text_bounded text :
  In [] (separators cfg) ->
  exists out, split_text cfg text = Ok out
              /\ Forall (fun c => zlen c <= chunk_size cfg)%Z out.
Proof.
  intros Hin. unfold split_text.
  destruct (separators cfg) as [|s0 ss] eqn:E; [done|].
  by apply split_text_rec_bounded.
Qed.

End SplitProofs.

(** *** A text shorter than a chunk *)

Section ShortText.
Context (cfg : splitter).
Hypothesis Hkeep : keep_separator cfg = true.

(** Pieces that fit together in one window are all added to it: the
    loop never emits and never drops. *)
Lemma merge_loop_fits cur splits :
  (zlen (concat cur) + zlen (concat splits) <= chunk_size cfg)%Z ->
  merge_loop cfg [] (mkMerge [] cur (zlen (concat cur))) splits
  = Ok (mkMerge [] (cur ++ splits) (zlen (concat (cur ++ splits)))).
Proof.
  revert cur. induction splits as [|d rest IH]; intros cur Hfit; cbn [merge_loop].
  - by rewrite app_nil_r.
  - cbn [concat] in Hfit. rewrite zlen_app in Hfit.
    pose proof (zlen_nonneg (concat rest)).
    assert (Z0 : (if cur is [] then 0 else zlen (@nil N))%Z = 0%Z) by (by destruct cur).
    unfold merge_step. cbn [m_total m_cur m_docs]. rewrite Z0.
    rewrite (proj2 (Z.ltb_ge _ _)) by lia. cbn [andb rbind m_docs m_cur m_total]. rewrite Z0.
    replace (zlen (concat cur) + zlen d + 0)%Z with (zlen (concat (cur ++ [d])))
      by (rewrite concat_app, zlen_app; cbn [concat]; rewrite app_nil_r; lia).
    rewrite IH by (rewrite concat_app, !zlen_app; cbn [concat]; rewrite app_nil_r; lia).
    by rewrite <- app_assoc.
Qed.

(** Short pieces only gather: the loop flushes them all at the end. *)
Lemma split_loop_short merge_sep recurse final good splits :
  Forall (fun s => zlen s < chunk_size cfg)%Z splits ->
  split_loop cfg merge_sep recurse final good splits = flush cfg merge_sep final (good ++ splits).
Proof.
  revert good. induction splits as [|s rest IH]; intros good Hs; simpl; [by rewrite app_nil_r|].
  apply Forall_cons in Hs as [Hs Hrest].
  rewrite (proj2 (Z.ltb_lt _ _) Hs), IH by done. by rewrite <- app_assoc.
Qed.

Definition stripped_chunk (text : pystr) : list pystr :=
  if bool_decide (py_strip text = []) then [] else [py_strip text].

Lemma split_with_short text sep recurse :
  (zlen text < chunk_size cfg)%Z -> split_with cfg text sep recurse = Ok (stripped_chunk text).
Proof.
  intros Ht. unfold split_with. rewrite Hkeep.
  pose proof (split_text_with_regex_concat text sep) as Hc.
  set (ps := split_text_with_regex text sep true) in *.
  rewrite split_loop_short.
  2:{ eapply Forall_impl; [apply length_le_concat|]. intros x Hx. rewrite Hc in Hx.
      unfold zlen in *. lia. }
  cbn [app]. destruct ps as [|p ps'] eqn:Eps; [by rewrite <- Hc|].
  cbn [flush]. rewrite <- Eps in *. unfold merge_splits.
  pose proof (merge_loop_fits [] ps) as Hm. cbn [app] in Hm.
  change (zlen (concat (@nil pystr))) with 0%Z in Hm.
  rewrite Hm by (rewrite Hc; unfold zlen in *; lia). cbn [rbind m_docs m_cur app].
  unfold join_docs, stripped_chunk. rewrite py_join_empty, Hc. by case_bool_decide.
Qed.

Lemma split_text_rec_short lastsep seps text :
  (zlen text < chunk_size cfg)%Z -> split_text_rec cfg lastsep seps text = Ok (stripped_chunk text).
Proof.
  intros Ht. revert lastsep. induction seps as [|s rest IH]; intros lastsep; simpl;
    [by apply split_with_short|].
  case_bool_decide; [by apply split_with_short|].
  destruct (py_contains text s); [by apply split_with_short|]. apply IH.
Qed.

End ShortText.

(** *** Two paragraphs *)

Lemma break_at_no_nl2 s : 10%N ∉ s -> break_at [10; 10]%N s = None.
Proof.
  induction s as [|c s IH]; intros Hs; [done|]. apply not_elem_of_cons in Hs as [Hc Hs].
  simpl. rewrite bool_decide_false by congruence. simpl. by rewrite IH.
Qed.

Lemma break_at_first_nl2 a rest :
  10%N ∉ a -> break_at [10; 10]%N (a ++ [10; 10]%N ++ rest) = Some (a, rest).
Proof.
  induction a as [|c a IH]; intros Ha; [done|]. apply not_elem_of_cons in Ha as [Hc Ha].
  cbn [app] in *. simpl. rewrite bool_decide_false by congruence. simpl. by rewrite IH.
Qed.

Lemma py_contains_app_startswith a b p : py_startswith b p = true -> py_contains (a ++ b) p = true.
Proof.
  intros Hb. induction a as [|c a IH]; simpl.
  - destruct b; simpl in *; [by destruct p|by rewrite Hb].
  - by rewrite IH, orb_true_r.
Qed.

(** Two single-line paragraphs separated by a blank line are cut into
    the first paragraph and the second with the blank line in front. *)
Lemma split_text_with_regex_two p1 p2 :
  p1 <> [] -> 10%N ∉ p1 -> 10%N ∉ p2 ->
  split_text_with_regex (p1 ++ [10; 10]%N ++ p2) [10; 10]%N true = [p1; [10; 10]%N ++ p2].
Proof.
  intros Hne H1 H2. unfold split_text_with_regex, re_split.
  replace (length (p1 ++ [10; 10]%N ++ p2)) with (S (length p1 + S (length p2)))
    by (rewrite !length_app; simpl; lia).
  cbn [re_split_fuel]. rewrite break_at_first_nl2 by done.
  cbn [re_split_fuel]. rewrite break_at_no_nl2 by done.
  cbn. unfold nonempty. rewrite bool_decide_false by done. done.
Qed.

(** Two pieces that do not fit in one window, the first longer than
    the overlap: the first is emitted alone, and the [while] loop drops
    it entirely before the second is added. *)
Lemma merge_splits_two cfg a b :
  (0 <= chunk_overlap cfg < zlen a)%Z -> (zlen a <= chunk_size cfg)%Z ->
  (chunk_size cfg < zlen a + zlen b)%Z ->
  merge_splits cfg [] [a; b] = Ok (option_list (join_docs [a] []) ++ option_list (join_docs [b] [])).
Proof.
  intros Hov Ha Hab. unfold merge_splits. cbn [merge_loop]. unfold merge_step.
  cbn [m_total m_cur m_docs]. rewrite bool_decide_true by done. rewrite andb_false_r.
  cbn [rbind m_docs m_cur m_total app]. change (zlen (@nil N)) with 0%Z.
  rewrite bool_decide_false by done. cbn [drop_front]. zltb_by_lia.
  rewrite !andb_false_r. cbn -[join_docs]. reflexivity.
Qed.

Lemma make_splitter_spec cs ov cfg :
  make_splitter cs ov = Ok cfg ->
  chunk_size cfg = cs /\ chunk_overlap cfg = ov
  /\ (1 <= cs)%Z /\ (0 <= ov <= cs)%Z /\ separators cfg = default_separators.
Proof.
  unfold make_splitter.
  destruct (cs <=? 0)%Z eqn:E1; [done|].
  destruct (ov <? 0)%Z eqn:E2; [done|].
  destruct (cs <? ov)%Z eqn:E3; [done|].
  intros [= <-]. simpl. split_and!; try done; lia.
Qed.

Lemma split_documents_spec cfg docs :
  (0 <= chunk_overlap cfg)%Z -> (1 <= chunk_size cfg)%Z -> In [] (separators cfg) ->
  exists out, split_documents cfg docs = Ok out
    /\ Forall (fun c => (zlen (page_content c) <= chunk_size cfg)%Z
                        /\ doc_id c = None
                        /\ exists d, In d docs /\ metadata c = metadata d) out.
Proof.
  intros Hov Hcs Hin. induction docs as [|d ds IH]; simpl; [eauto|].
  destruct (split_text_bounded cfg Hov Hcs (page_content d) Hin) as (cs & -> & Hcs').
  destruct IH as (more & -> & Hmore). simpl.
  eexists. split; [done|]. apply Forall_app. split.
  - apply Forall_map. eapply Forall_impl; [exact Hcs'|].
    intros c Hc. simpl. split; [done|]. split; [done|]. exists d. auto.
  - eapply Forall_impl; [exact Hmore|].
    intros c (H1 & H2 & e & He & Hm). split; [done|]. split; [done|]. exists e. auto.
Qed.

(** C1: The source's [split_text] always returns, and every chunk it
    returns has at most 1000 characters, no id, and the metadata of a
    document it was given. *)
Theorem RagProject_split_text_spec documents :
  exists chunks, RagProject.split_text documents = Ok chunks
    /\ Forall (fun c => length (page_content c) <= 1000
                        /\ doc_id c = None
                        /\ exists d, In d documents /\ metadata c = metadata d) chunks.
Proof.
  unfold RagProject.split_text.
  destruct (make_splitter 1000 200) as [cfg|e] eqn:E; [|discriminate].
  destruct (make_splitter_spec _ _ _ E) as (Hc & Ho & _ & _ & Hs). simpl.
  destruct (split_documents_spec cfg documents) as (out & -> & Hout);
    [lia|lia|rewrite Hs; simpl; tauto|].
  eexists. split; [done|].
  eapply Forall_impl; [exact Hout|]. intros c (H1 & H2 & H3).
  split; [|auto]. unfold zlen in H1. lia.
Qed.

(** C27: a document shorter than a chunk is kept whole. The source's
    [split_text] turns a document of fewer than 1000 characters into
    one chunk holding its whole text with the surrounding whitespace
    stripped and its metadata, or into no chunk when it is blank: no
    separator cuts it, and nothing is lost or repeated. *)
Theorem split_text_short_document d :
  length (page_content d) < 1000 ->
  RagProject.split_text [d]
  = Ok (if bool_decide (py_strip (page_content d) = []) then []
        else [mkDocument (py_strip (page_content d)) (metadata d) None]).
Proof.
  intros Hl. unfold RagProject.split_text.
  change (make_splitter 1000 200) with (Ok (mkSplitter 1000 200 default_separators true)).
  cbn [rbind split_documents]. unfold split_text. cbn [separators default_separators].
  rewrite split_text_rec_short by (done || (unfold zlen; simpl; lia)).
  cbn [rbind]. unfold stripped_chunk. by case_bool_decide.
Qed.

(** C18: the spec (sections 4.2 and 8) says that consecutive chunks
    of one document overlap by [chunk_overlap] characters. The source's
    splitter gives no overlap at all to any document made of two
    single-line paragraphs separated by a blank line, when the first is
    longer than the overlap (200) and the two do not fit in one chunk
    (1000): the chunks are exactly the two paragraphs. The first piece
    is emitted alone, the [while] loop of [_merge_splits] empties the
    window because it is longer than the overlap, and [strip] removes
    the blank line in front of the second. *)
Theorem split_text_no_overlap p1 p2 m :
  10%N ∉ p1 -> 10%N ∉ p2 -> py_strip p1 = p1 -> py_strip p2 = p2 -> p2 <> [] ->
  200 < length p1 < 1000 -> length p2 + 2 < 1000 -> 1000 < length p1 + length p2 + 2 ->
  RagProject.split_text [mkDocument (p1 ++ [10; 10]%N ++ p2) m None]
  = Ok [mkDocument p1 m None; mkDocument p2 m None].
Proof.
  intros H1 H2 S1 S2 Hne L1 L2 L12. assert (Hne1 : p1 <> []) by (intros ->; simpl in L1; lia).
  unfold RagProject.split_text.
  change (make_splitter 1000 200) with (Ok (mkSplitter 1000 200 default_separators true)).
  cbn [rbind split_documents page_content metadata]. unfold split_text.
  cbn [separators default_separators split_text_rec].
  rewrite bool_decide_false by done. rewrite py_contains_app_startswith by reflexivity.
  unfold split_with. cbn [keep_separator]. rewrite split_text_with_regex_two by done.
  assert (Z1 : zlen p1 = Z.of_nat (length p1)) by done.
  assert (Z2 : zlen ([10; 10]%N ++ p2) = Z.of_nat (length p2 + 2))
    by (unfold zlen; rewrite length_app; cbn [length]; lia).
  cbn [split_loop chunk_size]. rewrite Z1, Z2. zltb_by_lia. cbn [flush app].
  assert (Z3 : zlen (10%N :: 10%N :: p2) = Z.of_nat (length p2 + 2))
    by (unfold zlen; cbn [length]; lia).
  rewrite merge_splits_two by (cbn [chunk_overlap chunk_size]; rewrite ?Z1, ?Z3; lia).
  unfold join_docs. cbn [py_join].
  change (py_strip (10%N :: 10%N :: p2)) with (py_strip p2).
  rewrite S1, S2, !bool_decide_false by done. reflexivity.
Qed.

(** *** Witnesses *)

Lemma re_split_fuel_enough_witness :
  re_split_fuel 10 true [32]%N (lit "a b") = re_split true [32]%N (lit "a b").
Proof. apply re_split_fuel_enough; [done | simpl; lia]. Defined.

Lemma merge_splits_ok_witness :
  exists out, merge_splits (mkSplitter 4 1 default_separators true) []
                [lit "ab"; lit "cd"; lit "ef"] = Ok out.
Proof. apply merge_splits_ok. simpl. lia. Defined.

Lemma split_text_short_document_witness :
  RagProject.split_text [mkDocument (lit " Closed on Fridays. ") ∅ None]
  = Ok [mkDocument (lit "Closed on Fridays.") ∅ None].
Proof.
  rewrite (split_text_short_document (mkDocument (lit " Closed on Fridays. ") ∅ None))
    by (simpl; lia).
  vm_compute. reflexivity.
Defined.

Lemma split_text_no_overlap_witness :
  RagProject.split_text [mkDocument (repeat 97%N 600 ++ [10; 10]%N ++ repeat 98%N 600) ∅ None]
  = Ok [mkDocument (repeat 97%N 600) ∅ None; mkDocument (repeat 98%N 600) ∅ None].
Proof.
  apply split_text_no_overlap;
    [apply (bool_decide_unpack _); vm_compute; exact I
    | apply (bool_decide_unpack _); vm_compute; exact I
    | vm_compute; reflexivity | vm_compute; reflexivity | discriminate
    | rewrite repeat_length; lia | rewrite repeat_length; lia | rewrite !repeat_length; lia].
Defined.

Lemma split_text_bounded_witness :
  exists out, split_text (mkSplitter 10 3 default_separators true)
                (lit "aaaa bbbb cccc dddd")
              = Ok out /\ Forall (fun c => zlen c <= 10)%Z out.
Proof.
  apply (split_text_bounded (mkSplitter 10 3 default_separators true));
    [simpl; lia | simpl; lia | simpl; tauto].
Defined.

End SplitterSpec.
