(* ===== verification/Chain.v ===== *)
(** * Chain: query rewriting, multi-query retrieval and the answer chain

    The query-time functions of [src/Rag/Rag_project.py]:
    - [construct_query] (lines 168-190) formats the rewrite prompt,
      calls [ChatOpenAI(temperature=0)] and returns the text;
    - [get_retriever] (lines 195-216) wraps the top-5 similarity search
      in [MultiQueryRetriever.from_llm];
    - [create_rag_chain] (lines 221-254) builds
      [{"context": retriever, "question": RunnablePassthrough()} | prompt
      | llm | StrOutputParser()].
    [answer] is the composition the app and the [__main__] block run:
    rewrite, then invoke the chain on the rewritten query.

    Several library pieces are modelled from the spec and from their
    documented behaviour: [ChatPromptTemplate.from_template] (the
    f-string parser and [str.format]), [StrOutputParser],
    [LineListOutputParser] and [MultiQueryRetriever]. The chat model is
    the oracle [llm]: it maps a model configuration and the text of the
    single human message to the completion or an exception. The
    retriever reaches the index through the [VectorSearch] class.
    [doc_repr] is Python's [repr] of a [Document], and
    [multi_query_prompt] is the library's default expansion prompt
    filled with the question; both are left abstract. *)

From S2P Require Import Prelude.

(** ** What the retriever needs from the vector store *)

Class VectorSearch (Store : Type) := {
  (** [vector_store.as_retriever(search_type="similarity",
      search_kwargs={"k": k}).invoke(query)] *)
  vs_similarity_search : Store -> pystr -> nat -> result (list Document);
  (** At most [k] documents come back. *)
  vs_search_bound : forall st q k docs,
    vs_similarity_search st q k = Ok docs -> length docs <= k
}.

(** ** Prompt templates (f-string format) *)

Module PromptTemplate.

Inductive piece :=
  | PLit (s : pystr)
  | PVar (name : pystr).

#[export] Instance piece_eq_dec : EqDecision piece.
Proof. solve_decision. Defined.

Definition lit_piece (acc : pystr) : list piece :=
  if acc is [] then [] else [PLit (rev acc)].

(** [string.Formatter().parse] as [from_template] runs it: [{{] and
    [}}] stand for one brace, [{name}] is a variable, a lone [}] or an
    unclosed [{] raises [ValueError]. [acc] and [field] hold the
    current literal and field name reversed. Conversions ([!r]) and
    format specs ([:x]) do not occur in the source's templates and are
    read as part of the name. *)
Fixpoint parse_aux (s : pystr) (field : option pystr) (acc : pystr) : result (list piece) :=
  match s with
  | [] =>
      match field with
      | Some _ => Err (ValueError "expected '}' before end of string")
      | None => Ok (lit_piece acc)
      end
  | c :: r =>
      match field with
      | Some name =>
          if bool_decide (c = 125%N) then
            ps <- parse_aux r None [] ;; Ok (PVar (rev name) :: ps)
          else if bool_decide (c = 123%N) then Err (ValueError "unexpected '{' in field name")
          else parse_aux r (Some (c :: name)) acc
      | None =>
          if bool_decide (c = 123%N) then
            match r with
            | d :: r' =>
                if bool_decide (d = 123%N) then parse_aux r' None (123%N :: acc)
                else ps <- parse_aux r (Some []) [] ;; Ok (lit_piece acc ++ ps)
            | [] => Err (ValueError "expected '}' before end of string")
            end
          else if bool_decide (c = 125%N) then
            match r with
            | d :: r' =>
                if bool_decide (d = 125%N) then parse_aux r' None (125%N :: acc)
                else Err (ValueError "Single '}' encountered in format string")
            | [] => Err (ValueError "Single '}' encountered in format string")
            end
          else parse_aux r None (c :: acc)
      end
  end.

(** [ChatPromptTemplate.from_template(template)] *)
Definition from_template (template : pystr) : result (list piece) :=
  parse_aux template None [].

Fixpoint assoc (k : pystr) (vars : list (pystr * pystr)) : option pystr :=
  match vars with
  | [] => None
  | (k', v) :: r => if bool_decide (k = k') then Some v else assoc k r
  end.

(** [template.format(...)] with the variables [vars]: a missing variable raises
    [KeyError]. *)
Fixpoint format (ps : list piece) (vars : list (pystr * pystr)) : result pystr :=
  match ps with
  | [] => Ok []
  | PLit s :: r => rest <- format r vars ;; Ok (s ++ rest)
  | PVar n :: r =>
      match assoc n vars with
      | Some v => rest <- format r vars ;; Ok (v ++ rest)
      | None => Err (KeyError "template variable")
      end
  end.

End PromptTemplate.

(** ** The chain *)

Module RagChain.
Import PromptTemplate.

(** [ChatOpenAI(model=..., temperature=...)]; [None] is the library's
    default model. *)
Record chat_openai := mkChat { model_name : option string; temperature : Z }.

(** [StrOutputParser()]: the message's content, unchanged. *)
Definition str_output_parser (content : pystr) : pystr := content.

Definition py_truthy (s : pystr) : bool := negb (bool_decide (s = [])).

(** [LineListOutputParser.parse]: [list(filter(None,
    text.strip().split("\n")))]. *)
Definition line_list_parse (text : pystr) : list pystr :=
  filter py_truthy (py_split_char 10%N (py_strip text)).

(** [str(list_of_strings_reprs)]: ["[a, b]"] *)
Definition py_list_str (reprs : list pystr) : pystr :=
  [91%N] ++ py_join (lit ", ") reprs ++ [93%N].

(** [_unique_documents]: [[doc for i, doc in enumerate(documents) if
    doc not in documents[:i]]]; [prefix] is [documents[:i]]. *)
Fixpoint unique_from (prefix : list Document) (l : list Document) : list Document :=
  match l with
  | [] => []
  | d :: r => (if bool_decide (d ∈ prefix) then [] else [d]) ++ unique_from (prefix ++ [d]) r
  end.

Definition unique_documents (documents : list Document) : list Document :=
  unique_from [] documents.

(** The rewrite prompt of [construct_query], lines 177-183. *)
Definition rewrite_template : pystr := lit "Provide a better search query for the user question. 
        Focus on extracting keywords and intent. 
        Do not answer the question, just rewrite it for a search engine.

        User Question: {question}
        
        Search Query:".

(** The answer prompt of [create_rag_chain], lines 229-241. *)
Definition rag_template : pystr := lit "You are a helpful assistant for a company. 
    Use the following pieces of retrieved context to answer the question. 
    If you don't know the answer, just say that you don't know. 
    Use three sentences maximum and keep the answer concise.

    Context:
    {context}

    Question:
    {question}

    Answer:
    ".

Section Chain.
Context {Store : Type} `{VectorSearch Store}.
Variable llm : chat_openai -> pystr -> result pystr.
Variable doc_repr : Document -> pystr.
Variable multi_query_prompt : pystr -> pystr.

(** [rewriter = rewrite_prompt | llm | StrOutputParser()] and its
    [invoke({"question": question})], lines 186-189. *)
Definition rewriter (rewrite_prompt : list piece) (model : chat_openai) (question : pystr)
    : result pystr :=
  prompt <- format rewrite_prompt [(lit "question", question)] ;;
  content <- llm model prompt ;;
  Ok (str_output_parser content).

(** [construct_query(question)], lines 168-190. *)
Definition construct_query (question : pystr) : result pystr :=
  let model := mkChat None 0 in
  rewrite_prompt <- from_template rewrite_template ;;
  rewriter rewrite_prompt model question.

(** [vector_store.as_retriever(search_type="similarity",
    search_kwargs={"k": k})], lines 202-205. *)
Record base_retriever := mkBaseRetriever {
  br_store : Store;
  br_k : nat
}.

(** [MultiQueryRetriever] as [from_llm] builds it. *)
Record multi_query_retriever := mkMultiQuery {
  mq_retriever : base_retriever;
  mq_llm : chat_openai;
  mq_include_original : bool
}.

(** [get_retriever(vector_store)], lines 195-216 ([include_original]
    keeps the library's default, [False]). *)
Definition get_retriever (vector_store : Store) : multi_query_retriever :=
  let base := mkBaseRetriever vector_store 5 in
  let model := mkChat None 0 in
  mkMultiQuery base model false.

(** [generate_queries]: one model call, one query per non-empty line. *)
Definition generate_queries (r : multi_query_retriever) (question : pystr) : result (list pystr) :=
  content <- llm (mq_llm r) (multi_query_prompt question) ;;
  Ok (line_list_parse content).

(** [retrieve_documents]: the base search for each query, in order. *)
Fixpoint retrieve_documents (st : Store) (k : nat) (queries : list pystr)
    : result (list Document) :=
  match queries with
  | [] => Ok []
  | q :: rest =>
      docs <- vs_similarity_search st q k ;;
      more <- retrieve_documents st k rest ;;
      Ok (docs ++ more)
  end.

(** [MultiQueryRetriever._get_relevant_documents(query)] *)
Definition mq_get_relevant_documents (r : multi_query_retriever) (query : pystr)
    : result (list Document) :=
  queries <- generate_queries r query ;;
  let queries := if mq_include_original r then queries ++ [query] else queries in
  documents <- retrieve_documents (br_store (mq_retriever r)) (br_k (mq_retriever r)) queries ;;
  Ok (unique_documents documents).

Record rag_chain := mkRagChain {
  rc_retriever : multi_query_retriever;
  rc_prompt : list piece;
  rc_llm : chat_openai
}.

(** [create_rag_chain(retriever)], lines 221-254: the template is
    parsed when the chain is built. *)
Definition create_rag_chain (retriever : multi_query_retriever) : result rag_chain :=
  prompt <- from_template rag_template ;;
  Ok (mkRagChain retriever prompt (mkChat (Some "gpt-4o-mini"%string) 0)).

(** The [prompt | llm | StrOutputParser()] half of the chain, on the
    dict [{"context": documents, "question": input}]. *)
Definition generate (c : rag_chain) (input : pystr) (context : list Document) : result pystr :=
  prompt <- format (rc_prompt c)
              [(lit "context", py_list_str (map doc_repr context)); (lit "question", input)] ;;
  content <- llm (rc_llm c) prompt ;;
  Ok (str_output_parser content).

(** [rag_chain.invoke(input)]: the retriever and the passthrough see
    the same input; the documents are formatted with [str()]. *)
Definition rag_chain_invoke (c : rag_chain) (input : pystr) : result pystr :=
  context <- mq_get_relevant_documents (rc_retriever c) input ;;
  generate c input context.

(** The query-time path of the app (app.py lines 130-133) and of the
    [__main__] block (lines 281-286): rewrite, then run the chain on the
    rewritten query. *)
Definition answer (c : rag_chain) (user_input : pystr) : result pystr :=
  search_query <- construct_query user_input ;;
  rag_chain_invoke c search_query.

(** The [__main__] block's query path, lines 272-286:
    [rag_chain = create_rag_chain(get_retriever(vector_store))], then
    [rag_chain.invoke(construct_query(user_input))]. *)
Definition run_answer (vector_store : Store) (user_input : pystr) : result pystr :=
  rag_chain <- create_rag_chain (get_retriever vector_store) ;;
  answer rag_chain user_input.

End Chain.

End RagChain.

(** ** Properties of the query-time path *)

Module ChainSpec.
Import PromptTemplate RagChain.

(** The text of the two templates around their fields. *)
Definition rewrite_before : pystr := lit "Provide a better search query for the user question. 
        Focus on extracting keywords and intent. 
        Do not answer the question, just rewrite it for a search engine.

        User Question: ".
Definition rewrite_after : pystr := lit "
        
        Search Query:".
Definition rag_before : pystr := lit "You are a helpful assistant for a company. 
    Use the following pieces of retrieved context to answer the question. 
    If you don't know the answer, just say that you don't know. 
    Use three sentences maximum and keep the answer concise.

    Context:
    ".
Definition rag_middle : pystr := lit "

    Question:
    ".
Definition rag_after : pystr := lit "

    Answer:
    ".

(** The models the code builds. *)
Definition rewriter_model : chat_openai := mkChat None 0.
Definition answer_model : chat_openai := mkChat (Some "gpt-4o-mini"%string) 0.

(** A store for examples: a list of documents, searched by substring
    and cut to [k]. *)
Definition list_search (st : list Document) (q : pystr) (k : nat) : result (list Document) :=
  Ok (firstn k (filter (fun d => py_contains (page_content d) q) st)).

#[export] Program Instance list_store : VectorSearch (list Document) := {
  vs_similarity_search := list_search
}.
Next Obligation. intros st q k docs H. injection H as <-. apply firstn_le_length. Qed.

(** The spec's scenario: one text file, a model that rewrites and
    expands every question to [office], and answers with the sentence. *)
Definition office_doc : Document :=
  mkDocument (lit "The office is closed on Fridays.") ∅ None.

Definition office_llm (m : chat_openai) (p : pystr) : result pystr :=
  if model_name m is None then Ok (lit "office") else Ok (lit "Fridays.").

(** The chain [create_rag_chain (get_retriever [office_doc])] builds. *)
Definition office_chain : @rag_chain (list Document) :=
  mkRagChain (get_retriever [office_doc])
    [PLit rag_before; PVar (lit "context"); PLit rag_middle; PVar (lit "question"); PLit rag_after]
    answer_model.

(** The same model when the expansion call fails. *)
Definition failing_expansion_llm (m : chat_openai) (p : pystr) : result pystr :=
  if bool_decide (p = lit "office") then Err (ProviderError "openai") else Ok (lit "office").

(** *** [_unique_documents] *)

Lemma elem_of_snoc {A} (x d : A) (l : list A) : d ∈ l ++ [x] <-> d ∈ l \/ d = x.
Proof. by rewrite elem_of_app, list_elem_of_singleton. Qed.

Lemma unique_from_spec l : forall prefix,
  NoDup (unique_from prefix l)
  /\ (forall d, d ∈ unique_from prefix l <-> d ∈ l /\ d ∉ prefix)
  /\ length (unique_from prefix l) <= length l.
Proof.
  induction l as [|x r IH]; intros prefix; simpl.
  - split; [constructor|]. split; [|lia]. intros d. rewrite elem_of_nil. tauto.
  - destruct (IH (prefix ++ [x])) as (Hnd & Hin & Hlen).
    case_bool_decide as Hx; simpl.
    + split; [done|]. split; [|lia]. intros d.
      rewrite Hin, elem_of_cons, elem_of_snoc.
      split; [tauto|]. intros [[->|Hd] Hp]; [contradiction|].
      split; [done|]. intros [?| ->]; contradiction.
    + split; [|split; [|lia]].
      * constructor; [|done]. rewrite Hin, elem_of_snoc. intros [_ Hp]. apply Hp. by right.
      * intros d. rewrite elem_of_cons, Hin, elem_of_cons, elem_of_snoc.
        split; [intros [->|Hd]; [split; [by left|done]|]|].
        { destruct Hd as [Hd Hp]. split; [by right|]. tauto. }
        intros [[->|Hd] Hp]; [by left|].
        destruct (decide (d = x)) as [->|Hne]; [by left|right; tauto].
Qed.

Lemma unique_documents_spec documents :
  NoDup (unique_documents documents)
  /\ (forall d, d ∈ unique_documents documents <-> d ∈ documents)
  /\ length (unique_documents documents) <= length documents.
Proof.
  destruct (unique_from_spec documents []) as (H1 & H2 & H3).
  split; [done|]. split; [|done]. intros d. rewrite H2, elem_of_nil. tauto.
Qed.

(** *** The source's templates *)

Lemma rewrite_template_parse :
  from_template rewrite_template = Ok [PLit rewrite_before; PVar (lit "question"); PLit rewrite_after].
Proof. vm_compute. reflexivity. Qed.

Lemma rag_template_parse :
  from_template rag_template =
    Ok [PLit rag_before; PVar (lit "context"); PLit rag_middle; PVar (lit "question"); PLit rag_after].
Proof. vm_compute. reflexivity. Qed.

Section Proofs.
Context {Store : Type} `{VectorSearch Store}.
Variable llm : chat_openai -> pystr -> result pystr.
Variable doc_repr : Document -> pystr.
Variable multi_query_prompt : pystr -> pystr.

Lemma retrieve_documents_spec st k queries docs :
  retrieve_documents st k queries = Ok docs ->
  length docs <= k * length queries
  /\ forall d, d ∈ docs <->
       exists q ds, q ∈ queries /\ vs_similarity_search st q k = Ok ds /\ d ∈ ds.
Proof.
  revert docs. induction queries as [|q qs IH]; intros docs Hr; simpl in Hr.
  - injection Hr as <-. split; [simpl; lia|]. intros d. rewrite elem_of_nil.
    split; [done|]. intros (q & ds & Hq & _). by apply elem_of_nil in Hq.
  - inv_bind Hr. rename a into ds. inv_bind Hk. rename a into more.
    injection Hk0 as <-. destruct (IH more Hc0) as [Hlen Hin].
    pose proof (vs_search_bound _ _ _ _ Hc). split.
    + rewrite length_app. simpl. lia.
    + intros d. rewrite elem_of_app, Hin. split.
      * intros [Hd|(q' & ds' & ? & ? & ?)].
        -- exists q, ds. split_and!; [left|done|done].
        -- exists q', ds'. split_and!; [by right|done|done].
      * intros (q' & ds' & Hq & Hs & Hd). apply elem_of_cons in Hq as [->|Hq].
        -- left. rewrite Hc in Hs. by injection Hs as ->.
        -- right. eauto.
Qed.

Lemma format_rewrite question :
  format [PLit rewrite_before; PVar (lit "question"); PLit rewrite_after]
    [(lit "question", question)] = Ok (rewrite_before ++ question ++ rewrite_after).
Proof.
  cbn -[lit rewrite_before rewrite_after]. rewrite bool_decide_true by done.
  cbn -[lit rewrite_before rewrite_after]. by rewrite app_nil_r.
Qed.

Lemma format_rag context question :
  format [PLit rag_before; PVar (lit "context"); PLit rag_middle; PVar (lit "question"); PLit rag_after]
    [(lit "context", context); (lit "question", question)]
  = Ok (rag_before ++ context ++ rag_middle ++ question ++ rag_after).
Proof.
  cbn -[lit rag_before rag_middle rag_after].
  rewrite (bool_decide_true (lit "context" = lit "context")) by done.
  rewrite (bool_decide_false (lit "question" = lit "context")) by (vm_compute; discriminate).
  rewrite (bool_decide_true (lit "question" = lit "question")) by done.
  cbn -[lit rag_before rag_middle rag_after]. by rewrite app_nil_r.
Qed.

Lemma create_rag_chain_ok (r : @multi_query_retriever Store) :
  create_rag_chain r = Ok (mkRagChain r
    [PLit rag_before; PVar (lit "context"); PLit rag_middle; PVar (lit "question"); PLit rag_after]
    answer_model).
Proof. unfold create_rag_chain. by rewrite rag_template_parse. Qed.

Lemma generate_spec (r : @multi_query_retriever Store) pieces input context :
  create_rag_chain r = Ok (mkRagChain r pieces answer_model) ->
  generate llm doc_repr (mkRagChain r pieces answer_model) input context =
    (content <- llm answer_model
       (rag_before ++ py_list_str (map doc_repr context) ++ rag_middle ++ input ++ rag_after) ;;
     Ok content).
Proof.
  rewrite create_rag_chain_ok. intros Hc. injection Hc as <-.
  unfold generate. simpl rc_prompt. by rewrite format_rag.
Qed.

Lemma mq_get_relevant_documents_unfold (vs : Store) query :
  mq_get_relevant_documents llm multi_query_prompt (get_retriever vs) query =
    (content <- llm rewriter_model (multi_query_prompt query) ;;
     docs <- retrieve_documents vs 5 (line_list_parse content) ;;
     Ok (unique_documents docs)).
Proof.
  unfold mq_get_relevant_documents, generate_queries, rewriter_model. simpl.
  by destruct (llm _ (multi_query_prompt query)).
Qed.

(** C15: [construct_query] sends the fixed rewrite prompt, with the
    question in place of [{question}], to a [ChatOpenAI] model at
    temperature 0, and returns the model's text unchanged. A failing
    model call is returned as the error: there is no fallback to the
    raw question. *)
Theorem construct_query_spec question :
  construct_query llm question =
    (content <- llm rewriter_model (rewrite_before ++ question ++ rewrite_after) ;; Ok content).
Proof.
  unfold construct_query. rewrite rewrite_template_parse, rbind_Ok.
  unfold rewriter. by rewrite format_rewrite, rbind_Ok.
Qed.

(** C5: the retriever [get_retriever] builds makes one expansion call
    and searches each non-empty line of its answer with [k = 5]; the
    result has no duplicates, at most five documents per line, and is
    exactly the union of the documents those searches returned. The
    original query is searched only if the model repeats it. *)
Theorem get_retriever_spec (vs : Store) query docs :
  mq_get_relevant_documents llm multi_query_prompt (get_retriever vs) query = Ok docs ->
  exists content,
    llm rewriter_model (multi_query_prompt query) = Ok content
    /\ NoDup docs
    /\ length docs <= 5 * length (line_list_parse content)
    /\ forall d, d ∈ docs <->
         exists q ds, q ∈ line_list_parse content
                      /\ vs_similarity_search vs q 5 = Ok ds /\ d ∈ ds.
Proof.
  rewrite mq_get_relevant_documents_unfold. intros Hr.
  inv_bind Hr. rename a into content. inv_bind Hk. rename a into all.
  injection Hk0 as <-. exists content. split; [done|].
  destruct (unique_documents_spec all) as (Hnd & Hin & Hlen).
  destruct (retrieve_documents_spec _ _ _ _ Hc0) as [Hlen' Hin'].
  split_and!; [done|lia|]. intros d. by rewrite Hin, Hin'.
Qed.

Lemma run_answer_unfold (vs : Store) u :
  run_answer llm doc_repr multi_query_prompt vs u =
    (q <- llm rewriter_model (rewrite_before ++ u ++ rewrite_after) ;;
     content <- llm rewriter_model (multi_query_prompt q) ;;
     docs <- retrieve_documents vs 5 (line_list_parse content) ;;
     a <- llm answer_model (rag_before ++ py_list_str (map doc_repr (unique_documents docs))
                            ++ rag_middle ++ q ++ rag_after) ;;
     Ok a).
Proof.
  unfold run_answer. rewrite create_rag_chain_ok, rbind_Ok. unfold answer.
  rewrite construct_query_spec. destruct (llm _ (_ ++ u ++ _)) as [q|e]; [|done].
  rewrite !rbind_Ok. unfold rag_chain_invoke. simpl rc_retriever.
  rewrite mq_get_relevant_documents_unfold.
  destruct (llm _ (multi_query_prompt q)) as [content|e]; [|done]. rewrite !rbind_Ok.
  destruct (retrieve_documents _ _ _) as [docs|e]; [|done]. rewrite !rbind_Ok.
  by erewrite generate_spec by apply create_rag_chain_ok.
Qed.

(** C2: the whole query path. An answer comes back exactly when the
    rewrite call returns a query [q], the expansion call on [q] returns
    a text, the top-5 searches of its lines succeed, and the answer
    model returns the answer for the prompt that holds the de-duplicated
    documents and [q]. The question in the answer prompt is the
    rewritten query, not the user's question. *)
Theorem run_answer_spec (vs : Store) u a :
  run_answer llm doc_repr multi_query_prompt vs u = Ok a <->
  exists q content docs,
    llm rewriter_model (rewrite_before ++ u ++ rewrite_after) = Ok q
    /\ llm rewriter_model (multi_query_prompt q) = Ok content
    /\ retrieve_documents vs 5 (line_list_parse content) = Ok docs
    /\ llm answer_model (rag_before ++ py_list_str (map doc_repr (unique_documents docs))
                         ++ rag_middle ++ q ++ rag_after) = Ok a.
Proof.
  rewrite run_answer_unfold. split.
  - intros Hr. inv_binds. eauto 10.
  - intros (q & content & docs & Hq & Hc & Hd & Ha). by rewrite Hq, rbind_Ok, Hc, rbind_Ok, Hd, rbind_Ok, Ha.
Qed.

(** C13: when the expansion call fails, the whole question fails with
    that error, although the search for the query itself could still
    run: the retriever does not fall back to a single-query search. *)
Theorem expansion_failure_fails (vs : Store) u q e :
  llm rewriter_model (rewrite_before ++ u ++ rewrite_after) = Ok q ->
  llm rewriter_model (multi_query_prompt q) = Err e ->
  run_answer llm doc_repr multi_query_prompt vs u = Err e.
Proof.
  intros Hq He. by rewrite run_answer_unfold, Hq, rbind_Ok, He.
Qed.

(** C21: when the expansion answer has no non-blank line, no search
    runs at all and the context is empty, so the answer prompt holds
    the empty list [[]] as context. *)
Theorem empty_expansion_no_context (vs : Store) query content :
  llm rewriter_model (multi_query_prompt query) = Ok content ->
  line_list_parse content = [] ->
  mq_get_relevant_documents llm multi_query_prompt (get_retriever vs) query = Ok [].
Proof. intros Hc Hl. by rewrite mq_get_relevant_documents_unfold, Hc, rbind_Ok, Hl. Qed.

End Proofs.

(** *** Witnesses, on the spec's one-file scenario *)

Lemma get_retriever_spec_witness :
  exists content,
    office_llm rewriter_model (lit "office") = Ok content
    /\ NoDup [office_doc]
    /\ length [office_doc] <= 5 * length (line_list_parse content)
    /\ forall d, d ∈ [office_doc] <->
         exists q ds, q ∈ line_list_parse content
                      /\ vs_similarity_search [office_doc] q 5 = Ok ds /\ d ∈ ds.
Proof.
  apply (get_retriever_spec office_llm (fun q => q) [office_doc] (lit "office") [office_doc]).
  vm_compute. reflexivity.
Defined.

Lemma run_answer_spec_witness :
  exists q content docs,
    office_llm rewriter_model (rewrite_before ++ lit "When is the office closed?" ++ rewrite_after) = Ok q
    /\ office_llm rewriter_model q = Ok content
    /\ retrieve_documents [office_doc] 5 (line_list_parse content) = Ok docs
    /\ office_llm answer_model (rag_before ++ py_list_str (map page_content (unique_documents docs))
                                ++ rag_middle ++ q ++ rag_after) = Ok (lit "Fridays.").
Proof.
  apply (proj1 (run_answer_spec office_llm page_content (fun q => q) [office_doc]
                  (lit "When is the office closed?") (lit "Fridays."))).
  vm_compute. reflexivity.
Defined.

Lemma expansion_failure_fails_witness :
  run_answer failing_expansion_llm page_content (fun q => q) [office_doc]
    (lit "When is the office closed?") = Err (ProviderError "openai").
Proof.
  apply (expansion_failure_fails failing_expansion_llm page_content (fun q => q) [office_doc]
           (lit "When is the office closed?") (lit "office")); vm_compute; reflexivity.
Defined.

Lemma empty_expansion_no_context_witness :
  mq_get_relevant_documents (fun _ _ => Ok (lit " 
  
 ")) (fun q => q) (get_retriever [office_doc]) (lit "office") = Ok [].
Proof.
  apply (empty_expansion_no_context (fun _ _ => Ok (lit " 
  
 ")) (fun q => q) [office_doc] (lit "office") (lit " 
  
 ")); vm_compute; reflexivity.
Defined.

End ChainSpec.
