(* ===== verification/Index.v ===== *)
(** * Index: [create_vector_store] and the Chroma collection on disk

    [create_vector_store(chunks)] ([Rag_project.py] lines 147-163)
    calls [Chroma.from_documents] with [OpenAIEmbeddings] and
    [persist_directory=CHROMA_PATH]. [Chroma] itself is modelled from
    the documented behaviour of [langchain_chroma] and [chromadb]:
    - opening a client on the directory creates it and an empty
      collection when absent, and opens the collection when present;
    - [from_texts] gives every text a fresh id and adds the texts in
      batches of at most [max_batch]. Each batch is embedded with one
      [embed_documents] call and then written; the first failing batch
      raises, and the batches written before it stay on disk;
    - a similarity search embeds the query, orders the records by their
      distance to it and returns the first [k], each document carrying
      its record's id.

    The embedding provider is the [Embeddings] class: the two calls
    either raise or return vectors, one per text. The distance of the
    collection's space is the function [distance]. Vectors are lists of
    integers: their values are opaque to everything but [distance].
    [uuid4] ids are fresh numbers from a counter kept in the
    collection. *)

From stdpp Require Import sorting pretty.
From S2P Require Import Prelude Chain.

Module Chroma.

Abbreviation vec := (list Z).

(** [OpenAIEmbeddings(model="text-embedding-3-small")] *)
Class Embeddings := {
  embed_documents : list pystr -> result (list vec);
  embed_query : pystr -> result vec;
  embed_documents_length : forall ts vs, embed_documents ts = Ok vs -> length vs = length ts
}.

(** One stored record: id, text with metadata, and vector. *)
Record record := mkRecord { r_id : N; r_doc : Document; r_vec : vec }.

(** The collection [langchain] in the directory, and the next fresh id. *)
Record collection := mkCollection { c_records : list record; c_next : N }.

Definition empty_collection : collection := mkCollection [] 0.

(** Splitting a list into batches of [n]; the fuel is the list's length. *)
Fixpoint batches_fuel {A} (fuel n : nat) (l : list A) : list (list A) :=
  match fuel with
  | O => []
  | S fuel => if l is [] then [] else take n l :: batches_fuel fuel n (drop n l)
  end.

Definition batches {A} (n : nat) (l : list A) : list (list A) := batches_fuel (length l) n l.

Section Chroma.
Context `{Embeddings}.
(** [create_batches]' size, at least one. *)
Variable max_batch : nat.
(** The distance of the collection's space ([l2] by default). *)
Variable distance : vec -> vec -> Z.

(** [Chroma(persist_directory=CHROMA_PATH, ...)] on the directory as it
    is: [None] when the directory is absent. *)
Definition open_dir (d : option collection) : collection := default empty_collection d.

(** What the collection keeps of a document: its text and metadata. *)
Definition stored_doc (d : Document) : Document := mkDocument (page_content d) (metadata d) None.

Fixpoint mk_records (next : N) (docs : list Document) (vs : list vec) : list record :=
  match docs, vs with
  | d :: docs', v :: vs' => mkRecord next (stored_doc d) v
                            :: mk_records (next + 1)%N docs' vs'
  | _, _ => []
  end.

(** [add_texts] for one batch: one embedding call, then the upsert. *)
Definition add_batch (c : collection) (docs : list Document) : result collection :=
  vs <- embed_documents (map page_content docs) ;;
  Ok (mkCollection (c_records c ++ mk_records (c_next c) docs vs)
                   (c_next c + N.of_nat (length docs))).

(** The batches in order; the collection as the first failing batch
    leaves it, and the error. *)
Fixpoint add_batches (c : collection) (bs : list (list Document)) : collection * result unit :=
  match bs with
  | [] => (c, Ok tt)
  | b :: rest =>
      match add_batch c b with
      | Ok c' => add_batches c' rest
      | Err e => (c, Err e)
      end
  end.

(** [create_vector_store(chunks)], lines 147-163, on the directory [d]:
    the directory afterwards, and the store or the exception. *)
Definition create_vector_store (d : option collection) (chunks : list Document)
    : option collection * result collection :=
  let c := open_dir d in
  let '(c', r) := add_batches c (batches max_batch chunks) in
  (Some c', match r with Ok _ => Ok c' | Err e => Err e end).

(** The document a search returns for a record. *)
Definition to_doc (r : record) : Document :=
  mkDocument (page_content (r_doc r)) (metadata (r_doc r)) (Some (pretty (r_id r))).

Definition closer (qv : vec) (r1 r2 : record) : Prop := (distance qv (r_vec r1) <= distance qv (r_vec r2))%Z.

#[export] Instance closer_dec qv : RelDecision (closer qv).
Proof. intros r1 r2. unfold closer. apply _. Defined.

(** [similarity_search(query, k)]: the [k] records nearest to the
    query's embedding. *)
Definition similarity_search (c : collection) (query : pystr) (k : nat) : result (list Document) :=
  qv <- embed_query query ;;
  Ok (map to_doc (take k (merge_sort (closer qv) (c_records c)))).

End Chroma.

(** The retriever's view of a collection. *)
#[export] Program Instance chroma_search `{Embeddings} (distance : vec -> vec -> Z)
  : VectorSearch collection := {|
  vs_similarity_search := similarity_search distance
|}.
Next Obligation.
  intros ? distance c q k docs Hs. unfold similarity_search in Hs. inv_binds.
  rewrite length_map, length_take. lia.
Qed.

End Chroma.

(** ** Properties of the index *)

Module IndexSpec.
Import Chroma.

(** The collection's invariant: ids are distinct and below the counter. *)
Definition wf (c : collection) : Prop :=
  NoDup (map r_id (c_records c)) /\ forall r, r ∈ c_records c -> (r_id r < c_next c)%N.

(** Every stored vector is what the provider returns for the record's
    text as a query. *)
Definition embedded `{Embeddings} (c : collection) : Prop :=
  forall r, r ∈ c_records c -> embed_query (page_content (r_doc r)) = Ok (r_vec r).

(** A provider for examples: a text's vector is its length and the sum
    of its code points; an empty text is refused, as the OpenAI API
    refuses empty input. *)
Definition toy_vec (t : pystr) : vec := [Z.of_nat (length t); Z.of_N (foldr N.add 0%N t)].

#[export] Program Instance toy_embeddings : Embeddings := {|
  embed_documents ts :=
    if existsb (fun t => bool_decide (t = [])) ts then Err (ProviderError "openai")
    else Ok (map toy_vec ts);
  embed_query t := Ok (toy_vec t)
|}.
Next Obligation. intros ts vs H. simpl in H. destruct (existsb _ ts); simplify_eq. by rewrite length_map. Qed.

Definition toy_distance (v w : vec) : Z := if bool_decide (v = w) then 0 else 1.

Definition chunk (t : string) : Document := mkDocument (lit t) ∅ None.

Lemma batches_fuel_concat {A} fuel n (l : list A) :
  1 <= n -> length l <= fuel -> concat (batches_fuel fuel n l) = l.
Proof.
  revert l. induction fuel as [|fuel IH]; intros l Hn Hl; simpl.
  - destruct l; [done|simpl in Hl; lia].
  - destruct l as [|x r]; [done|]. simpl. rewrite IH; [by rewrite take_drop|done|].
    rewrite length_drop. simpl in *. lia.
Qed.

Lemma batches_concat {A} n (l : list A) : 1 <= n -> concat (batches n l) = l.
Proof. intros Hn. by apply batches_fuel_concat. Qed.

Lemma mk_records_docs next docs vs :
  map r_doc (mk_records next docs vs) = map stored_doc (take (length vs) docs).
Proof.
  revert next vs. induction docs as [|d docs IH]; intros next [|v vs]; simpl; try done.
  by rewrite IH.
Qed.

Lemma mk_records_ids next docs vs r :
  r ∈ mk_records next docs vs -> (next <= r_id r < next + N.of_nat (length docs))%N.
Proof.
  revert next vs. induction docs as [|d docs IH]; intros next [|v vs] Hr; simpl in Hr;
    try by apply elem_of_nil in Hr.
  apply elem_of_cons in Hr as [->|Hr]; simpl; [lia|].
  apply IH in Hr. lia.
Qed.

Lemma mk_records_nodup next docs vs : NoDup (map r_id (mk_records next docs vs)).
Proof.
  revert next vs. induction docs as [|d docs IH]; intros next [|v vs]; simpl; try constructor.
  - intros Hin. apply list_elem_of_fmap in Hin as (r & Hr & Hin).
    apply mk_records_ids in Hin. lia.
  - apply IH.
Qed.

Section Build.
Context `{Embeddings}.
Variable max_batch : nat.
Hypothesis max_batch_pos : 1 <= max_batch.

Lemma wf_empty : wf empty_collection.
Proof. split; [constructor|]. intros r Hr. by apply elem_of_nil in Hr. Qed.

Lemma add_batch_spec c b c' :
  wf c -> add_batch c b = Ok c' ->
  wf c' /\ exists new, c_records c' = c_records c ++ new /\ map r_doc new = map stored_doc b.
Proof.
  intros [Hnd Hlt] Hb. unfold add_batch in Hb. inv_binds. rename a into vs.
  pose proof (embed_documents_length _ _ Hc) as Hlen. rewrite length_map in Hlen.
  split; [split|].
  - simpl. rewrite map_app. apply NoDup_app. split_and!; [done| |apply mk_records_nodup].
    intros x Hx Hx'. apply list_elem_of_fmap in Hx as (r & -> & Hr).
    apply list_elem_of_fmap in Hx' as (r' & Hid & Hr'). apply Hlt in Hr.
    apply mk_records_ids in Hr'. lia.
  - intros r Hr. simpl in *. apply elem_of_app in Hr as [Hr|Hr].
    + apply Hlt in Hr. lia.
    + apply mk_records_ids in Hr. lia.
  - eexists. split; [done|]. by rewrite mk_records_docs, Hlen, take_ge.
Qed.

Lemma add_batches_spec c bs c' r :
  wf c -> add_batches c bs = (c', r) ->
  wf c' /\ exists i new, c_records c' = c_records c ++ new
                         /\ map r_doc new = map stored_doc (concat (take i bs))
                         /\ match r with Ok _ => i = length bs | Err _ => i < length bs end.
Proof.
  revert c. induction bs as [|b rest IH]; intros c Hwf Hr; simpl in Hr.
  - injection Hr as <- <-. split; [done|]. exists 0, []. by rewrite app_nil_r.
  - destruct (add_batch c b) as [c1|e] eqn:Hb.
    + destruct (add_batch_spec _ _ _ Hwf Hb) as [Hwf1 (new1 & E1 & D1)].
      destruct (IH _ Hwf1 Hr) as [Hwf' (i & new & E & D & Hi)].
      split; [done|]. exists (S i), (new1 ++ new). split_and!.
      * by rewrite E, E1, app_assoc.
      * simpl. by rewrite !map_app, D1, D.
      * destruct r; simpl; lia.
    + injection Hr as <- <-. split; [done|]. exists 0, []. split_and!; [by rewrite app_nil_r|done|simpl; lia].
Qed.

(** A failing run of the batch loop: it stopped at the first batch
    whose embedding call failed, and every batch before it was written,
    in order. *)
Lemma add_batches_err c bs c' e :
  wf c -> add_batches c bs = (c', Err e) ->
  wf c' /\ exists i b new,
    bs !! i = Some b /\ embed_documents (map page_content b) = Err e
    /\ (forall j b', j < i -> bs !! j = Some b' -> is_ok (embed_documents (map page_content b')) = true)
    /\ c_records c' = c_records c ++ new
    /\ map r_doc new = map stored_doc (concat (take i bs)).
Proof.
  revert c. induction bs as [|b rest IH]; intros c Hwf Hr; simpl in Hr; [done|].
  destruct (add_batch c b) as [c1|e1] eqn:Hb.
  - destruct (add_batch_spec _ _ _ Hwf Hb) as [Hwf1 (new1 & E1 & D1)].
    destruct (IH _ Hwf1 Hr) as [Hwf' (i & b' & new & Hi & He & Hprev & E & D)].
    split; [done|]. exists (S i), b', (new1 ++ new). split_and!; [done|done| | |].
    + intros [|j] b'' Hj Hb''; simpl in Hb''.
      * injection Hb'' as <-. unfold add_batch in Hb.
        by destruct (embed_documents (map page_content b)).
      * apply (Hprev j); [lia|done].
    + by rewrite E, E1, app_assoc.
    + simpl. by rewrite !map_app, D1, D.
  - injection Hr as <- <-. split; [done|]. exists 0, b, []. split_and!; try done.
    + unfold add_batch in Hb. destruct (embed_documents (map page_content b)); simpl in Hb; congruence.
    + intros j ? Hj. lia.
    + by rewrite app_nil_r.
Qed.

(** C6: a build that succeeds leaves the directory holding the store
    it returns, keeps the invariant, and appends exactly the chunks,
    in order, with their text and metadata, to what the directory held
    before. *)
Theorem create_vector_store_spec d chunks d' s :
  wf (open_dir d) ->
  create_vector_store max_batch d chunks = (d', Ok s) ->
  d' = Some s /\ wf s
  /\ exists new, c_records s = c_records (open_dir d) ++ new
                 /\ map r_doc new = map stored_doc chunks.
Proof.
  intros Hwf Hc. unfold create_vector_store in Hc.
  destruct (add_batches _ _) as [c' r] eqn:Hb. destruct r as [[]|e]; [|discriminate].
  injection Hc as <- <-.
  destruct (add_batches_spec _ _ _ _ Hwf Hb) as [Hwf' (i & new & E & D & ->)].
  split_and!; [done|done|]. exists new. split; [done|].
  by rewrite D, take_ge, batches_concat.
Qed.

(** C10: a build that fails still leaves a directory. The build
    stopped at the first batch whose embedding call failed, with that
    call's exception, and the directory holds what it held before (an
    empty collection when there was none) followed by the chunks of
    every batch before the failing one, in order. The spec asks that no
    partial index be left queryable. *)
Theorem build_failure_leaves_index d chunks d' e :
  wf (open_dir d) ->
  create_vector_store max_batch d chunks = (d', Err e) ->
  exists i b c', d' = Some c' /\ wf c'
    /\ batches max_batch chunks !! i = Some b
    /\ embed_documents (map page_content b) = Err e
    /\ (forall j b', j < i -> batches max_batch chunks !! j = Some b' ->
                     is_ok (embed_documents (map page_content b')) = true)
    /\ exists new, c_records c' = c_records (open_dir d) ++ new
                   /\ map r_doc new = map stored_doc (concat (take i (batches max_batch chunks))).
Proof.
  intros Hwf Hc. unfold create_vector_store in Hc.
  destruct (add_batches _ _) as [c' r] eqn:Hb. destruct r as [[]|e']; [discriminate|].
  injection Hc as <- <-.
  destruct (add_batches_err _ _ _ _ Hwf Hb) as [Hwf' (i & b & new & Hi & He & Hprev & E & D)].
  exists i, b, c'. split_and!; try done. eauto.
Qed.

End Build.

Section Search.
Context `{Embeddings}.
Variable distance : vec -> vec -> Z.
(** What the spec's round trip needs of the space: a vector is at
    distance 0 from itself, distances are not negative, and only equal
    vectors are at distance 0. The [l2] distance has all three. *)
Hypothesis distance_self : forall v, distance v v = 0%Z.
Hypothesis distance_nonneg : forall v w, (0 <= distance v w)%Z.
Hypothesis distance_zero : forall v w, distance v w = 0%Z -> v = w.

#[local] Instance closer_total qv : Total (closer distance qv).
Proof. intros r1 r2. unfold closer. lia. Qed.

#[local] Instance closer_trans qv : Transitive (closer distance qv).
Proof. intros r1 r2 r3. unfold closer. lia. Qed.

(** The first record of the search order is at least as close as every
    record of the collection. *)
Lemma merge_sort_head_closest qv rs h rest :
  merge_sort (closer distance qv) rs = h :: rest ->
  forall r, r ∈ rs -> closer distance qv h r.
Proof.
  intros Hs r Hr.
  pose proof (StronglySorted_merge_sort (closer distance qv) rs) as Hss.
  rewrite Hs in Hss. apply StronglySorted_cons in Hss as [Hall _].
  assert (Hr' : r ∈ h :: rest) by (rewrite <- Hs, merge_sort_Permutation; done).
  apply elem_of_cons in Hr' as [->|Hr']; [unfold closer; lia|].
  rewrite Forall_forall in Hall. by apply Hall.
Qed.

(** Searching with the exact text of a stored record, embedded as the
    record's vector, returns first a record with that vector. *)
Lemma self_retrieval c r k docs :
  r ∈ c_records c ->
  embed_query (page_content (r_doc r)) = Ok (r_vec r) ->
  1 <= k ->
  similarity_search distance c (page_content (r_doc r)) k = Ok docs ->
  exists r', docs !! 0 = Some (to_doc r') /\ r_vec r' = r_vec r.
Proof.
  intros Hr Hq Hk Hs. unfold similarity_search in Hs. rewrite Hq in Hs. simpl in Hs.
  injection Hs as <-.
  destruct (merge_sort (closer distance (r_vec r)) (c_records c)) as [|h rest] eqn:Hm.
  - pose proof (merge_sort_Permutation (closer distance (r_vec r)) (c_records c)) as Hp.
    rewrite Hm in Hp. apply Permutation_nil_l in Hp. rewrite <- Hp in Hr. by apply elem_of_nil in Hr.
  - exists h. destruct k as [|k]; [lia|]. split; [done|].
    pose proof (merge_sort_head_closest _ _ _ _ Hm r Hr) as Hc. unfold closer in Hc.
    rewrite distance_self in Hc. specialize (distance_nonneg (r_vec r) (r_vec h)).
    symmetry. apply distance_zero. lia.
Qed.

End Search.

Section RoundTrip.
Context `{Embeddings}.
Variable max_batch : nat.
Hypothesis max_batch_pos : 1 <= max_batch.
Variable distance : vec -> vec -> Z.
Hypothesis distance_self : forall v, distance v v = 0%Z.
Hypothesis distance_nonneg : forall v w, (0 <= distance v w)%Z.
Hypothesis distance_zero : forall v w, distance v w = 0%Z -> v = w.
(** The provider embeds a text as a document the way it embeds it as a
    query. *)
Hypothesis embed_consistent : forall ts vs,
  embed_documents ts = Ok vs -> Forall2 (fun t v => embed_query t = Ok v) ts vs.

Lemma mk_records_embedded next docs vs r :
  Forall2 (fun t v => embed_query t = Ok v) (map page_content docs) vs ->
  r ∈ mk_records next docs vs -> embed_query (page_content (r_doc r)) = Ok (r_vec r).
Proof.
  revert next vs. induction docs as [|d docs IH]; intros next vs HF Hr;
    destruct vs as [|v vs]; simpl in *; try by apply elem_of_nil in Hr.
  inversion HF as [|? ? ? ? Hv HF']; subst.
  apply elem_of_cons in Hr as [->|Hr]; [done|]. by eapply IH.
Qed.

Lemma add_batches_embedded c bs c' res :
  embedded c -> add_batches c bs = (c', res) -> embedded c'.
Proof.
  revert c. induction bs as [|b rest IH]; intros c He Hb; simpl in Hb.
  - by injection Hb as <- <-.
  - destruct (add_batch c b) as [c1|e] eqn:E; [|by injection Hb as <- <-].
    apply (IH c1); [|done]. unfold add_batch in E. inv_binds.
    intros r Hr. simpl in Hr. apply elem_of_app in Hr as [Hr|Hr]; [by apply He|].
    eapply mk_records_embedded; [|done]. by apply embed_consistent.
Qed.

(** C14: the spec's round trip. After a build that succeeds, a search
    with the exact text of one of the chunks returns first a record
    whose vector is that text's embedding, so the chunk itself or one
    embedded the same way, for every [k >= 1]. *)
Theorem build_then_self_retrieval d chunks d' s ch k docs :
  wf (open_dir d) -> embedded (open_dir d) ->
  create_vector_store max_batch d chunks = (d', Ok s) ->
  ch ∈ chunks -> 1 <= k ->
  similarity_search distance s (page_content ch) k = Ok docs ->
  exists r', docs !! 0 = Some (to_doc r') /\ embed_query (page_content ch) = Ok (r_vec r').
Proof.
  intros Hwf Hemb Hc Hch Hk Hs. unfold create_vector_store in Hc.
  destruct (add_batches _ _) as [c' res] eqn:Hb. destruct res as [[]|e]; [|discriminate].
  injection Hc as <- <-.
  destruct (add_batches_spec max_batch max_batch_pos _ _ _ _ Hwf Hb) as [_ (i & new & E & D & ->)].
  rewrite take_ge, batches_concat in D by done.
  assert (Hin : stored_doc ch ∈ map r_doc new) by (rewrite D; by apply list_elem_of_fmap_2).
  apply list_elem_of_fmap in Hin as (r & Hr & Hrn).
  assert (Hrs : r ∈ c_records c') by (rewrite E; apply elem_of_app; by right).
  pose proof (add_batches_embedded _ _ _ _ Hemb Hb r Hrs) as Hq.
  assert (Ht : page_content (r_doc r) = page_content ch) by (rewrite <- Hr; done).
  rewrite Ht in Hq.
  destruct (self_retrieval distance distance_self distance_nonneg distance_zero c' r k docs Hrs)
    as (r' & H0 & Hv); [by rewrite Ht|done|by rewrite Ht|].
  exists r'. split; [done|]. by rewrite Hv.
Qed.

End RoundTrip.

(** *** Witnesses *)

Lemma create_vector_store_spec_witness :
  exists d' s,
    create_vector_store 1 None [chunk "Fridays"; chunk "Mondays"] = (d', Ok s)
    /\ d' = Some s /\ wf s
    /\ exists new, c_records s = c_records (open_dir None) ++ new
                   /\ map r_doc new = map stored_doc [chunk "Fridays"; chunk "Mondays"].
Proof.
  do 2 eexists. split; [reflexivity|].
  eapply (create_vector_store_spec 1 ltac:(lia) None); [apply wf_empty|reflexivity].
Defined.

Lemma build_failure_leaves_index_witness :
  exists d' e,
    create_vector_store 1 None [chunk "Fridays"; chunk ""] = (d', Err e)
    /\ exists i b c', d' = Some c' /\ wf c'
         /\ batches 1 [chunk "Fridays"; chunk ""] !! i = Some b
         /\ embed_documents (map page_content b) = Err e
         /\ (forall j b', j < i -> batches 1 [chunk "Fridays"; chunk ""] !! j = Some b' ->
                          is_ok (embed_documents (map page_content b')) = true)
         /\ exists new, c_records c' = c_records (open_dir None) ++ new
                        /\ map r_doc new
                           = map stored_doc (concat (take i (batches 1 [chunk "Fridays"; chunk ""]))).
Proof.
  do 2 eexists. split; [reflexivity|].
  eapply (build_failure_leaves_index 1 ltac:(lia) None); [apply wf_empty|reflexivity].
Defined.

Lemma build_then_self_retrieval_witness :
  exists d' s docs r',
    create_vector_store 1 None [chunk "Fridays"; chunk "Mondays"] = (d', Ok s)
    /\ similarity_search toy_distance s (lit "Fridays") 5 = Ok docs
    /\ docs !! 0 = Some (to_doc r') /\ embed_query (lit "Fridays") = Ok (r_vec r').
Proof.
  assert (Hd : forall v w, toy_distance v w = 0%Z -> v = w)
    by (intros v w; unfold toy_distance; case_bool_decide; [done|discriminate]).
  assert (Hcons : forall ts vs, embed_documents ts = Ok vs ->
                   Forall2 (fun t v => embed_query t = Ok v) ts vs).
  { intros ts vs He. simpl in He. destruct (existsb _ ts); simplify_eq.
    induction ts; simpl; constructor; auto. }
  edestruct (build_then_self_retrieval 1 ltac:(lia) toy_distance
               ltac:(intros v; unfold toy_distance; by rewrite bool_decide_true)
               ltac:(intros v w; unfold toy_distance; case_bool_decide; lia) Hd Hcons
               None [chunk "Fridays"; chunk "Mondays"]
               (create_vector_store 1 None [chunk "Fridays"; chunk "Mondays"]).1
               (default empty_collection
                  (match (create_vector_store 1 None [chunk "Fridays"; chunk "Mondays"]).2 with
                   | Ok s => Some s | Err _ => None end))
               (chunk "Fridays") 5)
    as (r' & H1 & H2);
    [apply wf_empty | intros r Hr; by apply elem_of_nil in Hr | reflexivity | left | lia
    | reflexivity |].
  do 4 eexists. split_and!; [reflexivity|reflexivity|exact H1|exact H2].
Defined.

End IndexSpec.

