(* ===== verification/App.v ===== *)
(** * App: the Streamlit front end of [src/app.py]

    Streamlit runs the whole script again on every user event. One run
    is [app_run]: [check_password] (lines 24-51), the chat history
    initialisation (57-59), the re-index button of the sidebar (66-83),
    the cached [init_rag] (89-109) and the chat turn (117-141).
    [st.rerun()] ends the run and starts a new one, in which the
    buttons read [False] and the chat input is empty; [serve] is that
    loop.

    The state is a [world]:
    - [w_session] is [st.session_state], a dict from keys to values
      (a [gmap]);
    - [w_disk] is the index directory [CHROMA_PATH] ([None] when
      absent);
    - [w_cache] is the value [st.cache_resource] holds for [init_rag].
    A browser session is a sequence of events, [run_events].
    The pipeline functions of [Rag_project.py] that the app calls form
    the [RagBackend] interface, so the theorems here hold for every
    backend that keeps its one law. [split_text] is not part of it: the
    app calls the verified [RagProject.split_text] of [Splitter]. *)

From S2P Require Import Prelude Splitter.

(** ** What the app needs from the pipeline *)

(** [Store] is the vector store handle [Chroma] returns. *)
Class RagBackend (Store : Type) := {
  (** [load_documents(DATA_PATH)] *)
  rb_load_documents : result (list Document);
  (** [create_vector_store(chunks)] on the index directory as it is:
      the directory afterwards, and the store or the exception. *)
  rb_create_vector_store : option Store -> list Document -> option Store * result Store;
  (** [Chroma(persist_directory=CHROMA_PATH, ...)] on an existing
      directory *)
  rb_open : Store -> Store;
  (** [construct_query(question)] *)
  rb_construct_query : pystr -> result pystr;
  (** [create_rag_chain(get_retriever(store)).invoke(query)] *)
  rb_invoke : Store -> pystr -> result pystr;
  (** A build that returns a store has persisted it. *)
  rb_create_persists : forall d chunks s,
    (rb_create_vector_store d chunks).2 = Ok s -> (rb_create_vector_store d chunks).1 = Some s
}.

Module StreamlitApp.

(** ** Session state *)

Inductive role := User | Assistant.

#[export] Instance role_eq_dec : EqDecision role.
Proof. solve_decision. Defined.

(** [{"role": ..., "content": ...}] *)
Record message := mkMessage { msg_role : role; msg_content : pystr }.

(** The values the script stores in [st.session_state]. *)
Inductive sval :=
  | SBool (b : bool)
  | SMessages (ms : list message).

Definition authenticated (ss : gmap string sval) : bool :=
  match ss !! "authenticated"%string with Some (SBool b) => b | _ => false end.

Definition messages (ss : gmap string sval) : list message :=
  match ss !! "messages"%string with Some (SMessages ms) => ms | _ => [] end.

Definition set_messages (ms : list message) (ss : gmap string sval) : gmap string sval :=
  <["messages"%string := SMessages ms]> ss.

(** The types the script keeps in the dict: a bool under
    ["authenticated"], the list of messages under ["messages"], and no
    other key. *)
Definition sval_typed (k : string) (v : sval) : Prop :=
  match v with
  | SBool _ => k = "authenticated"%string
  | SMessages _ => k = "messages"%string
  end.

Definition session_typed (ss : gmap string sval) : Prop := map_Forall sval_typed ss.

(** ** The world and the inputs of one run *)

Section App.
Context {Store : Type} `{RagBackend Store}.
(** [st.secrets] *)
Variable secrets : gmap string pystr.

Record world := mkWorld {
  w_session : gmap string sval;
  w_disk : option Store;
  w_cache : option Store
}.

Definition with_session (w : world) (ss : gmap string sval) : world :=
  mkWorld ss (w_disk w) (w_cache w).
Definition with_disk (w : world) (d : option Store) : world :=
  mkWorld (w_session w) d (w_cache w).

(** The widgets' values in one run: the password field, whether the
    Login button and the re-index button were clicked, and the
    submitted chat message. *)
Record ui := mkUi {
  ui_password : pystr;
  ui_login : bool;
  ui_reindex : bool;
  ui_chat : option pystr
}.

(** [st.rerun()] starts a run in which the buttons read [False] and the
    chat input is [None]; the text field keeps its value. *)
Definition after_rerun (u : ui) : ui := mkUi (ui_password u) false false None.

Inductive outcome :=
  | Stopped            (* st.stop() *)
  | Rerun              (* st.rerun() *)
  | Finished
  | Crashed (e : py_exn).  (* an exception the script does not catch *)

(** ** [check_password] (lines 24-47) *)

Inductive gate := GateOpen | GateClosed | GateRerun.

Definition check_password (ss : gmap string sval) (u : ui) : gmap string sval * gate :=
  let ss := if decide (ss !! "authenticated"%string = None)
            then <["authenticated"%string := SBool false]> ss else ss in
  if authenticated ss then (ss, GateOpen)
  else if ui_login u then
    let correct_password :=
      default (lit "admin123") (secrets !! "APP_PASSWORD"%string) in
    if decide (ui_password u = correct_password)
    then (<["authenticated"%string := SBool true]> ss, GateRerun)
    else (ss, GateClosed)
  else (ss, GateClosed).

(** Lines 58-59. *)
Definition init_messages (ss : gmap string sval) : gmap string sval :=
  if decide (ss !! "messages"%string = None) then set_messages [] ss else ss.

(** ** Building the index *)

(** [docs = load_documents(DATA_PATH)]; [chunks = split_text(docs)];
    [create_vector_store(chunks)], on the directory [d]. *)
Definition build_index (d : option Store) : option Store * result Store :=
  match rb_load_documents with
  | Err e => (d, Err e)
  | Ok docs =>
      match RagProject.split_text docs with
      | Err e => (d, Err e)
      | Ok chunks => rb_create_vector_store d chunks
      end
  end.

(** The re-index button, lines 66-83: [shutil.rmtree(CHROMA_PATH)],
    then the build, then [st.rerun()]. An exception of the build is
    not caught. *)
Definition reindex (w : world) : world * outcome :=
  let w := with_disk w None in
  let '(d, r) := build_index (w_disk w) in
  match r with
  | Ok _ => (with_disk w d, Rerun)
  | Err e => (with_disk w d, Crashed e)
  end.

(** [init_rag()] under [@st.cache_resource], lines 89-109: a cached
    value is returned as it is; otherwise the index is built when the
    directory is absent and opened when it exists, and the result is
    cached. An exception is not cached. *)
Definition init_rag (w : world) : world * result Store :=
  match w_cache w with
  | Some s => (w, Ok s)
  | None =>
      match w_disk w with
      | None =>
          let '(d, r) := build_index None in
          match r with
          | Ok s => (mkWorld (w_session w) d (Some s), Ok s)
          | Err e => (with_disk w d, Err e)
          end
      | Some s =>
          let h := rb_open s in
          (mkWorld (w_session w) (w_disk w) (Some h), Ok h)
      end
  end.

(** ** The chat turn, lines 117-141 *)

Definition chat_turn (w : world) (store : Store) (prompt : pystr) : world :=
  let ss := w_session w in
  let ms := messages ss ++ [mkMessage User prompt] in
  match rb_construct_query prompt with
  | Err _ => with_session w (set_messages ms ss)
  | Ok search_query =>
      match rb_invoke store search_query with
      | Err _ => with_session w (set_messages ms ss)
      | Ok response =>
          with_session w (set_messages (ms ++ [mkMessage Assistant response]) ss)
      end
  end.

(** ** One run of the script, and the rerun loop *)

Definition app_run (w : world) (u : ui) : world * outcome :=
  let '(ss, g) := check_password (w_session w) u in
  let w := with_session w ss in
  match g with
  | GateRerun => (w, Rerun)
  | GateClosed => (w, Stopped)
  | GateOpen =>
      let w := with_session w (init_messages (w_session w)) in
      if ui_reindex u then reindex w
      else
        let '(w, r) := init_rag w in
        match r with
        | Err e => (w, Crashed e)
        | Ok store =>
            match ui_chat u with
            | Some prompt => if prompt is [] then (w, Finished)
                             else (chat_turn w store prompt, Finished)
            | None => (w, Finished)
            end
        end
  end.

Fixpoint serve (fuel : nat) (w : world) (u : ui) : world * outcome :=
  match fuel with
  | O => (w, Rerun)
  | S n =>
      let '(w', o) := app_run w u in
      match o with
      | Rerun => serve n w' (after_rerun u)
      | _ => (w', o)
      end
  end.

(** One user event: a run and at most one rerun. *)
Definition handle_event (w : world) (u : ui) : world * outcome := serve 2 w u.

(** A browser session: its events handled one after the other. *)
Definition run_events (w : world) (us : list ui) : world :=
  foldl (fun w u => (handle_event w u).1) w us.

(** The worlds a browser session can reach from a fresh session. *)
Inductive reachable : world -> Prop :=
  | reach_init d c : reachable (mkWorld ∅ d c)
  | reach_event w u : reachable w -> reachable (handle_event w u).1.

(** The chat history the script writes: each user message followed by
    at most one assistant answer. *)
Inductive transcript_ok : list message -> Prop :=
  | tr_nil : transcript_ok []
  | tr_user c r : transcript_ok r -> transcript_ok (mkMessage User c :: r)
  | tr_pair c a r :
      transcript_ok r -> transcript_ok (mkMessage User c :: mkMessage Assistant a :: r).

End App.

End StreamlitApp.

(** A backend in which every call succeeds, except possibly
    [load_documents]: the store is the list of chunks and the model
    echoes the query. It runs the app on concrete inputs. *)
Definition echo_backend (docs : result (list Document)) : RagBackend (list Document) := {|
  rb_load_documents := docs;
  rb_create_vector_store := fun _ chunks => (Some chunks, Ok chunks);
  rb_open := fun s => s;
  rb_construct_query := fun q => Ok q;
  rb_invoke := fun _ q => Ok q;
  rb_create_persists := ltac:(intros d c s' Hs; simpl in *; congruence)
|}.

(** ** Properties of the app *)

Module AppSpec.
Import StreamlitApp.

Lemma messages_set ms ss : messages (set_messages ms ss) = ms.
Proof. unfold messages, set_messages. by rewrite lookup_insert_eq. Qed.

Lemma authenticated_set ms ss : authenticated (set_messages ms ss) = authenticated ss.
Proof. unfold authenticated, set_messages. by rewrite lookup_insert_ne. Qed.

Lemma messages_insert_auth v ss :
  messages (<["authenticated"%string := v]> ss) = messages ss.
Proof. unfold messages. by rewrite lookup_insert_ne. Qed.

Lemma authenticated_insert b ss :
  authenticated (<["authenticated"%string := SBool b]> ss) = b.
Proof. unfold authenticated. by rewrite lookup_insert_eq. Qed.

Lemma messages_init ss : messages (init_messages ss) = messages ss.
Proof.
  unfold init_messages. case_decide as E; [|done].
  rewrite messages_set. unfold messages. by rewrite E.
Qed.

Lemma authenticated_init ss : authenticated (init_messages ss) = authenticated ss.
Proof. unfold init_messages. case_decide; [apply authenticated_set|done]. Qed.

#[export] Hint Rewrite messages_set authenticated_set messages_insert_auth
  authenticated_insert messages_init authenticated_init : rag_simpl.

Lemma transcript_ok_app l1 l2 :
  transcript_ok l1 -> transcript_ok l2 -> transcript_ok (l1 ++ l2).
Proof. induction 1; intros; simpl; [done|apply tr_user|apply tr_pair]; auto. Qed.

Lemma transcript_ok_user l c : transcript_ok l -> transcript_ok (l ++ [mkMessage User c]).
Proof. intros. apply transcript_ok_app; [done|apply tr_user, tr_nil]. Qed.

Lemma transcript_ok_pair l c a :
  transcript_ok l -> transcript_ok (l ++ [mkMessage User c] ++ [mkMessage Assistant a]).
Proof. intros. apply transcript_ok_app; [done|apply tr_pair, tr_nil]. Qed.

Section Proofs.
Context {Store : Type} `{RagBackend Store}.
Variable secrets : gmap string pystr.

(** The session invariant: the transcript has the script's shape, and
    it is empty unless the session is authenticated. *)
Let session_inv (ss : gmap string sval) : Prop :=
  transcript_ok (messages ss) /\ (messages ss <> [] -> authenticated ss = true).

Lemma check_password_spec ss u :
  let '(ss', g) := check_password secrets ss u in
  messages ss' = messages ss
  /\ (authenticated ss = true -> ss' = ss /\ g = GateOpen)
  /\ (g = GateOpen -> authenticated ss' = true)
  /\ (g = GateRerun -> authenticated ss' = true)
  /\ (ui_login u = false -> g <> GateRerun).
Proof.
  unfold check_password.
  destruct (decide (ss !! "authenticated"%string = None)) as [E|E].
  - assert (Ha : authenticated ss = false) by (unfold authenticated; by rewrite E).
    autorewrite with rag_simpl. simpl.
    destruct (ui_login u); [case_decide|];
      autorewrite with rag_simpl; repeat split; by (congruence || done).
  - destruct (authenticated ss) eqn:Ha; [by repeat split|].
    destruct (ui_login u); [case_decide|];
      autorewrite with rag_simpl; repeat split; by (congruence || done).
Qed.

Lemma chat_turn_session w s p :
  authenticated (w_session (chat_turn w s p)) = authenticated (w_session w)
  /\ (exists extra, messages (w_session (chat_turn w s p))
                    = messages (w_session w) ++ [mkMessage User p] ++ extra
                    /\ (extra = [] \/ exists a, extra = [mkMessage Assistant a])).
Proof.
  unfold chat_turn.
  destruct (rb_construct_query p); [destruct (rb_invoke s _)|]; simpl;
    autorewrite with rag_simpl; split; try done;
    first [exists []; split; [done|by left]
          | eexists; split; [by rewrite <- app_assoc|right; eauto]].
Qed.

Lemma reindex_session w : w_session (reindex w).1 = w_session w.
Proof. unfold reindex. simpl. destruct (build_index None) as [d [s|e]]; done. Qed.

Lemma init_rag_session w : w_session (init_rag w).1 = w_session w.
Proof.
  unfold init_rag. destruct (w_cache w); [done|].
  destruct (w_disk w); [done|]. destruct (build_index None) as [d [s|e]]; done.
Qed.

Lemma init_rag_cache w s : w_cache w = Some s -> init_rag w = (w, Ok s).
Proof. unfold init_rag. by intros ->. Qed.

Lemma chat_turn_session_only w1 w2 s p :
  w_session w1 = w_session w2 ->
  w_session (chat_turn w1 s p) = w_session (chat_turn w2 s p).
Proof.
  intros E. unfold chat_turn. rewrite E.
  destruct (rb_construct_query p); [destruct (rb_invoke s _)|]; done.
Qed.

(** What one run does to the session: the gate's dict when the gate
    is not open; otherwise the dict with the history initialised, and,
    when a non-empty chat message came in, that dict after a chat turn
    against some store. *)
Lemma app_run_session_cases w u :
  let '(ss', g) := check_password secrets (w_session w) u in
  (g <> GateOpen /\ w_session (app_run secrets w u).1 = ss')
  \/ (g = GateOpen
      /\ (w_session (app_run secrets w u).1 = init_messages ss'
          \/ exists s p, w_session (app_run secrets w u).1
                         = w_session (chat_turn (mkWorld (init_messages ss') None None) s p))).
Proof.
  unfold app_run. destruct (check_password secrets (w_session w) u) as [ss' g].
  destruct g; simpl; [right; split; [done|]|by left|by left].
  destruct (ui_reindex u); [left; by rewrite reindex_session|].
  set (w1 := with_session (with_session w ss') (init_messages ss')).
  pose proof (init_rag_session w1) as Hs.
  destruct (init_rag w1) as [w2 [st|e]]; simpl in Hs; [|by left].
  destruct (ui_chat u) as [p|]; [|by left]. destruct p as [|c p]; [by left|].
  right. exists st, (c :: p). by apply chat_turn_session_only.
Qed.

(** The session invariant holds after the history is initialised on
    an authenticated dict, and after a chat turn on such a dict. *)
Lemma session_inv_open ss :
  authenticated ss = true -> transcript_ok (messages ss) -> session_inv (init_messages ss).
Proof. intros Ha Ht. unfold session_inv. by autorewrite with rag_simpl. Qed.

Lemma session_inv_chat ss s p :
  session_inv ss -> authenticated ss = true ->
  session_inv (w_session (chat_turn (mkWorld ss None None) s p)).
Proof.
  intros [Ht _] Ha. destruct (chat_turn_session (mkWorld ss None None) s p)
    as (Ha' & extra & Hm & Hx). simpl in *.
  split; [|by rewrite Ha'].
  rewrite Hm. destruct Hx as [-> | [a ->]];
    [by apply transcript_ok_user | by apply transcript_ok_pair].
Qed.

Lemma app_run_inv w u :
  session_inv (w_session w) -> session_inv (w_session (app_run secrets w u).1).
Proof.
  intros Hinv. pose proof (app_run_session_cases w u) as Hc.
  pose proof (check_password_spec (w_session w) u) as Hcp.
  destruct (check_password secrets (w_session w) u) as [ss' g].
  destruct Hcp as (Hm & Hauth & Hopen & Hrerun & _). destruct Hinv as [Ht Hne].
  destruct Hc as [[Hg ->] | [-> [-> | (s & p & ->)]]].
  - split; [by rewrite Hm|]. intros Hn. rewrite Hm in Hn.
    destruct (Hauth (Hne Hn)) as [-> _]. auto.
  - apply session_inv_open; [auto|by rewrite Hm].
  - apply session_inv_chat; [apply session_inv_open; [auto|by rewrite Hm]|].
    rewrite authenticated_init. auto.
Qed.

Lemma app_run_auth_mono w u :
  authenticated (w_session w) = true ->
  authenticated (w_session (app_run secrets w u).1) = true.
Proof.
  intros Ha. pose proof (app_run_session_cases w u) as Hc.
  pose proof (check_password_spec (w_session w) u) as Hcp.
  destruct (check_password secrets (w_session w) u) as [ss' g].
  destruct Hcp as (_ & Hauth & _ & _ & _). destruct (Hauth Ha) as [-> ->].
  destruct Hc as [[Hg _] | [_ [-> | (s & p & ->)]]].
  - done.
  - by rewrite authenticated_init.
  - rewrite (proj1 (chat_turn_session _ s p)). simpl. by rewrite authenticated_init.
Qed.

Lemma app_run_cache w u s :
  w_cache w = Some s -> w_cache (app_run secrets w u).1 = Some s.
Proof.
  intros Hc. unfold app_run. destruct (check_password secrets (w_session w) u) as [ss' g].
  destruct g; simpl; [|done|done].
  destruct (ui_reindex u).
  - unfold reindex. simpl. destruct (build_index None) as [d [?|?]]; simpl; done.
  - rewrite (init_rag_cache _ s) by done. simpl.
    destruct (ui_chat u) as [[|c p]|]; simpl; [done| |done].
    unfold chat_turn. destruct (rb_construct_query _); [destruct (rb_invoke s _)|]; done.
Qed.

(** A run whose buttons read [False] never asks for another run. *)
Lemma app_run_after_rerun w u : (app_run secrets w (after_rerun u)).2 <> Rerun.
Proof.
  unfold app_run. pose proof (check_password_spec (w_session w) (after_rerun u)) as Hcp.
  destruct (check_password secrets (w_session w) (after_rerun u)) as [ss' g].
  destruct Hcp as (_ & _ & _ & _ & Hl).
  destruct g; simpl; [|done|by destruct (Hl eq_refl)].
  destruct (init_rag _) as [w2 [st|e]]; simpl; done.
Qed.

Lemma serve_fuel_stable n w u :
  serve secrets (S (S n)) w u = serve secrets 2 w u
  /\ (serve secrets 2 w u).2 <> Rerun.
Proof.
  simpl. destruct (app_run secrets w u) as [w1 o] eqn:E.
  destruct o; simpl; try (split; [done|discriminate]).
  pose proof (app_run_after_rerun w1 u) as Hn.
  destruct (app_run secrets w1 (after_rerun u)) as [w2 o2].
  destruct o2; simpl in *; split; done.
Qed.

(** C16: The rerun loop terminates: one user event takes at most one
    [st.rerun()], so any fuel of at least two gives the same result as
    [handle_event], whose outcome is never a pending rerun. *)
Theorem serve_fuel_enough n w u :
  2 <= n ->
  serve secrets n w u = handle_event secrets w u
  /\ (handle_event secrets w u).2 <> Rerun.
Proof.
  intros Hn. destruct n as [|[|m]]; [lia|lia|].
  unfold handle_event. apply serve_fuel_stable.
Qed.

Lemma check_password_typed ss u :
  session_typed ss -> session_typed (check_password secrets ss u).1.
Proof.
  intros Ht. unfold check_password.
  assert (Ht0 : session_typed (if decide (ss !! "authenticated"%string = None)
                               then <["authenticated"%string := SBool false]> ss else ss))
    by (case_decide; [by apply map_Forall_insert_2|done]).
  repeat case_match; simpl; try done; by apply map_Forall_insert_2.
Qed.

Lemma init_messages_typed ss : session_typed ss -> session_typed (init_messages ss).
Proof. intros Ht. unfold init_messages, set_messages. case_decide; [by apply map_Forall_insert_2|done]. Qed.

Lemma chat_turn_typed w s p :
  session_typed (w_session w) -> session_typed (w_session (chat_turn w s p)).
Proof.
  intros Ht. unfold chat_turn, set_messages.
  destruct (rb_construct_query p); [destruct (rb_invoke s _)|]; simpl;
    by apply map_Forall_insert_2.
Qed.

Lemma app_run_typed w u :
  session_typed (w_session w) -> session_typed (w_session (app_run secrets w u).1).
Proof.
  intros Ht. pose proof (app_run_session_cases w u) as Hc.
  pose proof (check_password_typed (w_session w) u Ht) as Hcp.
  destruct (check_password secrets (w_session w) u) as [ss' g]. simpl in Hcp.
  destruct Hc as [[_ ->] | [_ [-> | (s & p & ->)]]]; [done|by apply init_messages_typed|].
  apply chat_turn_typed. by apply init_messages_typed.
Qed.

Lemma init_rag_with_session w ss :
  init_rag (with_session w ss) = (with_session (init_rag w).1 ss, (init_rag w).2).
Proof.
  destruct w as [ss0 d c]. unfold init_rag, with_session. simpl.
  destruct c; [done|]. destruct d; [done|]. by destruct (build_index None) as [d' [st|e]].
Qed.

Lemma init_rag_ok_cache w st : (init_rag w).2 = Ok st -> w_cache (init_rag w).1 = Some st.
Proof.
  destruct w as [ss0 d c]. unfold init_rag. simpl.
  destruct c; [by intros [= ->]|]. destruct d; [by intros [= <-]|].
  by destruct (build_index None) as [d' [st'|e]]; intros [= ->].
Qed.

(** A run past the gate with no button and no message initialises the
    history and caches the store. *)
Lemma app_run_open_idle w u ss' st :
  check_password secrets (w_session w) u = (ss', GateOpen) ->
  ui_reindex u = false -> ui_chat u = None -> (init_rag w).2 = Ok st ->
  app_run secrets w u = (with_session (init_rag w).1 (init_messages ss'), Finished)
  /\ w_cache (init_rag w).1 = Some st.
Proof.
  intros Hc Hr Hu Hi. split; [|by apply init_rag_ok_cache].
  unfold app_run. rewrite Hc, Hr. simpl.
  rewrite init_rag_with_session, init_rag_with_session. simpl. rewrite Hi, Hu.
  unfold with_session. simpl. done.
Qed.

(** Logging in with the right password on a session that is not yet
    authenticated: the dict gets [authenticated = True], the history is
    untouched, and the run asks for a rerun. *)
Lemma check_password_login ss pw :
  authenticated ss = false ->
  default (lit "admin123") (secrets !! "APP_PASSWORD"%string) = pw ->
  exists ss1, check_password secrets ss (mkUi pw true false None) = (ss1, GateRerun)
              /\ authenticated ss1 = true /\ messages ss1 = messages ss.
Proof.
  intros Ha Hpw. unfold check_password. simpl. rewrite Hpw, (decide_True (P := pw = pw)) by done.
  case_decide as E.
  - rewrite authenticated_insert. eexists. split; [reflexivity|].
    by rewrite authenticated_insert, !messages_insert_auth.
  - rewrite Ha. eexists. split; [reflexivity|]. by rewrite authenticated_insert, messages_insert_auth.
Qed.

(** One Login event with the right password, on any world whose
    [init_rag] succeeds: the session is authenticated afterwards, its
    history unchanged, and the store cached. *)
Lemma login_event w pw st :
  default (lit "admin123") (secrets !! "APP_PASSWORD"%string) = pw ->
  (init_rag w).2 = Ok st ->
  let w1 := (handle_event secrets w (mkUi pw true false None)).1 in
  authenticated (w_session w1) = true
  /\ messages (w_session w1) = messages (w_session w)
  /\ w_cache w1 = Some st.
Proof.
  intros Hpw Hi w1. subst w1. unfold handle_event. cbn [serve].
  set (u := mkUi pw true false None).
  destruct (authenticated (w_session w)) eqn:Ha.
  - pose proof (check_password_spec (w_session w) u) as Hcp.
    destruct (check_password secrets (w_session w) u) as [ss' g] eqn:Ec.
    destruct Hcp as (_ & Hauth & _). destruct (Hauth Ha) as [-> ->].
    destruct (app_run_open_idle w u _ st Ec eq_refl eq_refl Hi) as [-> Hc]. cbn.
    by rewrite authenticated_init, messages_init, Ha.
  - destruct (check_password_login (w_session w) pw Ha Hpw) as (ss1 & Ec & Ha1 & Hm1).
    assert (Hr : app_run secrets w u = (with_session w ss1, Rerun))
      by (unfold app_run, u; by rewrite Ec).
    rewrite Hr. cbn [serve]. set (w' := with_session w ss1).
    pose proof (check_password_spec ss1 (after_rerun u)) as Hcp.
    destruct (check_password secrets ss1 (after_rerun u)) as [ss' g] eqn:Ec'.
    destruct Hcp as (_ & Hauth & _). destruct (Hauth Ha1) as [-> ->].
    assert (Hi' : (init_rag w').2 = Ok st) by (unfold w'; by rewrite init_rag_with_session).
    destruct (app_run_open_idle w' (after_rerun u) ss1 st Ec' eq_refl eq_refl Hi') as [-> Hc].
    cbn. by rewrite authenticated_init, messages_init, Ha1, Hm1.
Qed.

Lemma run_events_cons w u us :
  run_events secrets w (u :: us) = run_events secrets (handle_event secrets w u).1 us.
Proof. reflexivity. Qed.

(** With loading failing and neither an index directory nor a cached
    store, a run keeps it that way and leaves the history as it was; it
    stops at the gate, asks for a rerun, or raises the loader's
    exception, which [init_rag] and the re-index button both reach. *)
Lemma app_run_load_failure w u e :
  rb_load_documents = Err e -> w_disk w = None -> w_cache w = None ->
  let '(w', o) := app_run secrets w u in
  w_disk w' = None /\ w_cache w' = None /\ messages (w_session w') = messages (w_session w)
  /\ (o = Stopped \/ o = Rerun \/ o = Crashed e).
Proof.
  intros Hl Hd Hc. destruct w as [ss0 d c]; simpl in Hd, Hc; subst d c.
  unfold app_run. cbn [w_session]. pose proof (check_password_spec ss0 u) as Hcp.
  destruct (check_password secrets ss0 u) as [ss g]. destruct Hcp as (Hm & _).
  destruct g; simpl; [|naive_solver|naive_solver].
  destruct (ui_reindex u); unfold reindex, init_rag, build_index; simpl;
    rewrite Hl; simpl; rewrite messages_init; naive_solver.
Qed.

Lemma serve_load_failure n w u e :
  rb_load_documents = Err e -> w_disk w = None -> w_cache w = None ->
  let '(w', o) := serve secrets n w u in
  w_disk w' = None /\ w_cache w' = None /\ messages (w_session w') = messages (w_session w)
  /\ (o = Stopped \/ o = Rerun \/ o = Crashed e).
Proof.
  intros Hl. revert w u. induction n as [|n IH]; intros w u Hd Hc; simpl; [naive_solver|].
  pose proof (app_run_load_failure w u e Hl Hd Hc) as Hr.
  destruct (app_run secrets w u) as [w1 o]. destruct Hr as (Hd1 & Hc1 & Hm1 & Ho).
  destruct o; [naive_solver| |naive_solver|naive_solver].
  specialize (IH w1 (after_rerun u) Hd1 Hc1).
  destruct (serve secrets n w1 (after_rerun u)) as [w2 o2]. rewrite <- Hm1. tauto.
Qed.

(** The same along any sequence of events. *)
Lemma run_events_load_failure w us e :
  rb_load_documents = Err e -> w_disk w = None -> w_cache w = None ->
  let w' := run_events secrets w us in
  w_disk w' = None /\ w_cache w' = None /\ messages (w_session w') = messages (w_session w).
Proof.
  intros Hl. revert w. induction us as [|u us IH]; intros w Hd Hc; [done|].
  rewrite run_events_cons. pose proof (serve_load_failure 2 w u e Hl Hd Hc) as Hs. unfold handle_event.
  destruct (serve secrets 2 w u) as [w1 o]. destruct Hs as (Hd1 & Hc1 & Hm1 & _).
  rewrite <- Hm1. by apply IH.
Qed.

(** A wrong password on a session that is not authenticated: the gate
    stays closed, whether or not Login was clicked. *)
Lemma check_password_wrong ss u :
  authenticated ss = false ->
  ui_password u <> default (lit "admin123") (secrets !! "APP_PASSWORD"%string) ->
  exists ss', check_password secrets ss u = (ss', GateClosed)
              /\ authenticated ss' = false /\ messages ss' = messages ss.
Proof.
  intros Ha Hpw. unfold check_password.
  case_decide as E; rewrite ?authenticated_insert, ?Ha;
    destruct (ui_login u); rewrite ?decide_False by done;
    eexists; (split; [reflexivity|]); by rewrite ?authenticated_insert, ?messages_insert_auth.
Qed.

(** Such a run stops at the gate having changed only the
    ["authenticated"] key, and so does the whole event. *)
Lemma handle_event_wrong_password w u :
  authenticated (w_session w) = false ->
  ui_password u <> default (lit "admin123") (secrets !! "APP_PASSWORD"%string) ->
  exists ss', handle_event secrets w u = (with_session w ss', Stopped)
              /\ authenticated ss' = false /\ messages ss' = messages (w_session w).
Proof.
  intros Ha Hpw. destruct (check_password_wrong (w_session w) u Ha Hpw) as (ss' & Ec & Ha' & Hm).
  exists ss'. split; [|done]. unfold handle_event. cbn [serve].
  unfold app_run. by rewrite Ec.
Qed.

(** A property of worlds that every run keeps is kept by the rerun
    loop. *)
Lemma serve_preserves (P : world -> Prop) :
  (forall w u, P w -> P (app_run secrets w u).1) ->
  forall n w u, P w -> P (serve secrets n w u).1.
Proof.
  intros Hrun n. induction n as [|n IH]; intros w u Hw; simpl; [done|].
  pose proof (Hrun w u Hw) as Hw'.
  destruct (app_run secrets w u) as [w1 o]. destruct o; simpl; auto.
Qed.

Lemma serve_inv n w u :
  session_inv (w_session w) -> session_inv (w_session (serve secrets n w u).1).
Proof. apply (serve_preserves (fun w => session_inv (w_session w))), app_run_inv. Qed.

Lemma serve_cache n w u s :
  w_cache w = Some s -> w_cache (serve secrets n w u).1 = Some s.
Proof. apply (serve_preserves (fun w => w_cache w = Some s)). intros. by apply app_run_cache. Qed.

Lemma serve_auth_mono n w u :
  authenticated (w_session w) = true ->
  authenticated (w_session (serve secrets n w u).1) = true.
Proof. apply (serve_preserves (fun w => authenticated (w_session w) = true)), app_run_auth_mono. Qed.

(** C3: In every session reachable from a fresh one, the chat history
    is a sequence of user messages each followed by at most one
    assistant answer, and it is empty unless the session has passed
    the password gate. *)
Theorem reachable_session_inv w :
  reachable secrets w ->
  transcript_ok (messages (w_session w))
  /\ (messages (w_session w) <> [] -> authenticated (w_session w) = true).
Proof.
  induction 1 as [d c|w u _ IH].
  - cbn [w_session]. unfold messages. rewrite lookup_empty. split; [constructor|done].
  - apply (serve_inv 2 w u IH).
Qed.

(** C22: the session dict is well typed in every session reachable
    from a fresh one: it has no key but ["authenticated"], holding a
    bool, and ["messages"], holding a list of messages, so that the
    script's [st.session_state.authenticated] test and its
    [st.session_state.messages.append] always find the type they
    expect. *)
Theorem reachable_session_typed w :
  reachable secrets w -> session_typed (w_session w).
Proof.
  induction 1 as [d c|w u _ IH]; [apply map_Forall_empty|].
  exact (serve_preserves (fun w => session_typed (w_session w)) app_run_typed 2 w u IH).
Qed.

(** C17: Without an [APP_PASSWORD] secret, [check_password] compares the
    input with the literal ["admin123"]: a fresh session that submits
    it is authenticated. *)
Theorem default_password_opens d c :
  secrets !! "APP_PASSWORD"%string = None ->
  authenticated (w_session (handle_event secrets (mkWorld ∅ d c)
                              (mkUi (lit "admin123") true false None)).1) = true.
Proof.
  intros Hs. set (u := mkUi (lit "admin123") true false None).
  set (ss1 := <["authenticated"%string := SBool true]>
                (<["authenticated"%string := SBool false]> (∅ : gmap string sval))).
  assert (E : app_run secrets (mkWorld ∅ d c) u = (mkWorld ss1 d c, Rerun)).
  { unfold app_run, check_password. rewrite Hs. simpl.
    rewrite lookup_empty, decide_True by done.
    unfold authenticated at 1. rewrite lookup_insert_eq. simpl.
    done. }
  unfold handle_event. simpl. rewrite E.
  pose proof (app_run_auth_mono (mkWorld ss1 d c) (after_rerun u)) as Hm.
  destruct (app_run secrets (mkWorld ss1 d c) (after_rerun u)) as [w2 o2].
  assert (Ha1 : authenticated ss1 = true) by apply authenticated_insert.
  specialize (Hm Ha1). simpl in Hm. destruct o2; simpl; auto.
Qed.

(** C11: The re-index button deletes the index directory before it
    rebuilds it. When loading the documents fails, the run ends with the
    exception and no index directory at all, whatever was there before. *)
Theorem reindex_load_failure_deletes_index w u e :
  authenticated (w_session w) = true -> ui_reindex u = true ->
  rb_load_documents = Err e ->
  handle_event secrets w u
  = (mkWorld (init_messages (w_session w)) None (w_cache w), Crashed e).
Proof.
  intros Ha Hr Hl. unfold handle_event. simpl.
  unfold app_run. pose proof (check_password_spec (w_session w) u) as Hcp.
  destruct (check_password secrets (w_session w) u) as [ss g].
  destruct Hcp as (_ & Hauth & _). destruct (Hauth Ha) as [-> ->]. simpl.
  rewrite Hr. unfold reindex, build_index. simpl. by rewrite Hl.
Qed.

Lemma chat_uses_cache w u s p :
  w_cache w = Some s -> authenticated (w_session w) = true ->
  ui_reindex u = false -> ui_chat u = Some p -> p <> [] ->
  app_run secrets w u
  = (chat_turn (mkWorld (init_messages (w_session w)) (w_disk w) (Some s)) s p, Finished).
Proof.
  intros Hc Ha Hr Hu Hp. unfold app_run.
  pose proof (check_password_spec (w_session w) u) as Hcp.
  destruct (check_password secrets (w_session w) u) as [ss g].
  destruct Hcp as (_ & Hauth & _). destruct (Hauth Ha) as [-> ->]. simpl.
  rewrite Hr. unfold init_rag, with_session. simpl. rewrite Hc, Hu.
  destruct p; [done|reflexivity].
Qed.

(** C4: [init_rag] is cached with [st.cache_resource] and the re-index
    button never clears that cache. After any event, including a
    re-index that rebuilt the directory, a chat turn answers with the
    store that was cached before it, not with the rebuilt index. *)
Theorem chat_after_event_uses_cached_store w u1 u2 s p :
  w_cache w = Some s -> authenticated (w_session w) = true ->
  ui_reindex u2 = false -> ui_chat u2 = Some p -> p <> [] ->
  let w1 := (handle_event secrets w u1).1 in
  (handle_event secrets w1 u2).1
  = chat_turn (mkWorld (init_messages (w_session w1)) (w_disk w1) (Some s)) s p.
Proof.
  intros Hc Ha Hr Hu Hp w1.
  assert (Hc1 : w_cache w1 = Some s) by (apply serve_cache, Hc).
  assert (Ha1 : authenticated (w_session w1) = true) by (apply serve_auth_mono, Ha).
  unfold handle_event at 1. simpl.
  rewrite (chat_uses_cache w1 u2 s p) by done. done.
Qed.

(** C23: a user who knows the password gets an answer. From any
    world whose [init_rag] succeeds, two events suffice: a Login with
    the right password, then a non-empty chat message. Afterwards the
    session is authenticated and the history has grown by exactly the
    message and the pipeline's answer to it. *)
Theorem login_then_chat_answers w pw st p q a :
  default (lit "admin123") (secrets !! "APP_PASSWORD"%string) = pw ->
  (init_rag w).2 = Ok st ->
  rb_construct_query p = Ok q -> rb_invoke st q = Ok a -> p <> [] ->
  let w1 := (handle_event secrets w (mkUi pw true false None)).1 in
  let w2 := (handle_event secrets w1 (mkUi pw false false (Some p))).1 in
  authenticated (w_session w2) = true
  /\ messages (w_session w2) = messages (w_session w) ++ [mkMessage User p; mkMessage Assistant a].
Proof.
  intros Hpw Hi Hq Ha Hp w1 w2.
  destruct (login_event w pw st Hpw Hi) as (Ha1 & Hm1 & Hc1). fold w1 in Ha1, Hm1, Hc1.
  subst w2. unfold handle_event. cbn [serve].
  rewrite (chat_uses_cache w1 _ st p) by done. cbn -[chat_turn init_messages].
  unfold chat_turn. rewrite Hq. cbn [rbind]. rewrite Ha. cbn [rbind w_session with_session].
  rewrite authenticated_set, messages_set, authenticated_init, messages_init, Ha1, Hm1.
  by rewrite <- app_assoc.
Qed.

(** C26: the password gate guards the pipeline. From a session that is
    not authenticated, any sequence of events that do not carry the
    configured password leaves the session unauthenticated and its
    history as it was, and never loads, builds, opens, caches or
    deletes an index: every run stops at [st.stop()] before
    [init_rag]. *)
Theorem wrong_password_no_effect w us :
  authenticated (w_session w) = false ->
  Forall (fun u => ui_password u <> default (lit "admin123") (secrets !! "APP_PASSWORD"%string)) us ->
  let w' := run_events secrets w us in
  authenticated (w_session w') = false /\ messages (w_session w') = messages (w_session w)
  /\ w_disk w' = w_disk w /\ w_cache w' = w_cache w.
Proof.
  revert w. induction us as [|u us IH]; intros w Ha Hus; [done|].
  apply Forall_cons in Hus as [Hu Hus]. rewrite run_events_cons.
  destruct (handle_event_wrong_password w u Ha Hu) as (ss' & -> & Ha' & Hm). cbn [fst].
  destruct (IH (with_session w ss') Ha' Hus) as (? & Hm' & Hd & Hc).
  split_and!; [done| |done|done]. by rewrite Hm', <- Hm.
Qed.

End Proofs.

(** *** Witnesses, on the echo backend *)

Lemma serve_fuel_enough_witness :
  @serve _ (echo_backend (Ok [])) ∅ 3 (mkWorld ∅ None None) (mkUi [] true false None)
  = @handle_event _ (echo_backend (Ok [])) ∅ (mkWorld ∅ None None) (mkUi [] true false None)
  /\ (@handle_event _ (echo_backend (Ok [])) ∅ (mkWorld ∅ None None)
        (mkUi [] true false None)).2 <> Rerun.
Proof. apply (@serve_fuel_enough _ (echo_backend (Ok [])) ∅ 3). lia. Defined.

Lemma reachable_session_inv_witness :
  transcript_ok (messages (w_session (@mkWorld (list Document) ∅ None None)))
  /\ (messages (w_session (@mkWorld (list Document) ∅ None None)) <> [] ->
      authenticated (w_session (@mkWorld (list Document) ∅ None None)) = true).
Proof.
  apply (@reachable_session_inv _ (echo_backend (Ok [])) ∅).
  apply reach_init.
Defined.

Lemma default_password_opens_witness :
  authenticated (w_session (@handle_event _ (echo_backend (Ok [])) ∅
                              (mkWorld ∅ None None)
                              (mkUi (lit "admin123") true false None)).1) = true.
Proof. apply (@default_password_opens _ (echo_backend (Ok [])) ∅). done. Defined.

Lemma reindex_load_failure_deletes_index_witness :
  @handle_event _ (echo_backend (Err (LoadError "data"))) ∅
    (mkWorld ({["authenticated"%string := SBool true]} : gmap string sval) (Some []) None)
    (mkUi [] false true None)
  = (@mkWorld (list Document) (init_messages ({["authenticated"%string := SBool true]} : gmap string sval))
       None None,
     Crashed (LoadError "data")).
Proof.
  refine (@reindex_load_failure_deletes_index _ (echo_backend (Err (LoadError "data"))) ∅
           (mkWorld ({["authenticated"%string := SBool true]} : gmap string sval) (Some []) None)
           (mkUi [] false true None) (LoadError "data") _ eq_refl eq_refl).
  vm_compute. reflexivity.
Defined.

Lemma chat_after_event_uses_cached_store_witness :
  let w1 := (@handle_event _ (echo_backend (Ok [])) ∅
               (mkWorld ({["authenticated"%string := SBool true]} : gmap string sval) None (Some []))
               (mkUi [] false true None)).1 in
  (@handle_event _ (echo_backend (Ok [])) ∅ w1 (mkUi [] false false (Some (lit "hi")))).1
  = @chat_turn _ (echo_backend (Ok []))
      (mkWorld (init_messages (w_session w1)) (w_disk w1) (Some [])) [] (lit "hi").
Proof.
  apply (@chat_after_event_uses_cached_store _ (echo_backend (Ok [])) ∅);
    [reflexivity | vm_compute; reflexivity | reflexivity | reflexivity | discriminate].
Defined.

Lemma reachable_session_typed_witness :
  session_typed (w_session (@handle_event _ (echo_backend (Ok [])) ∅
                              (mkWorld ∅ None None) (mkUi (lit "admin123") true false None)).1).
Proof.
  apply (@reachable_session_typed _ (echo_backend (Ok [])) ∅).
  apply reach_event, reach_init.
Defined.

Lemma login_then_chat_answers_witness :
  let w1 := (@handle_event _ (echo_backend (Ok [])) ∅ (mkWorld ∅ None None)
               (mkUi (lit "admin123") true false None)).1 in
  let w2 := (@handle_event _ (echo_backend (Ok [])) ∅ w1
               (mkUi (lit "admin123") false false (Some (lit "hi")))).1 in
  authenticated (w_session w2) = true
  /\ messages (w_session w2)
     = messages (w_session (@mkWorld (list Document) ∅ None None))
       ++ [mkMessage User (lit "hi"); mkMessage Assistant (lit "hi")].
Proof.
  apply (@login_then_chat_answers _ (echo_backend (Ok [])) ∅ _ _ [] _ (lit "hi"));
    [reflexivity|reflexivity|reflexivity|reflexivity|discriminate].
Defined.

Lemma wrong_password_no_effect_witness :
  let us := [mkUi (lit "guess") true false None; mkUi (lit "hunter2") true true (Some (lit "hi"))] in
  let w' := run_events (H := echo_backend (Ok [])) ∅ (mkWorld ∅ None None) us in
  authenticated (w_session w') = false /\ messages (w_session w') = messages ∅
  /\ w_disk w' = None /\ w_cache w' = None.
Proof.
  apply (wrong_password_no_effect (H := echo_backend (Ok [])) ∅ (mkWorld ∅ None None));
    [reflexivity|].
  repeat constructor; vm_compute; discriminate.
Defined.

End AppSpec.
