(* ===== verification/Pipeline.v ===== *)
(** * Pipeline: the [__main__] block and the pipeline behind the app

    This file composes the components. [main] is the [__main__] block
    of [Rag_project.py] (lines 259-289). It opens the index directory
    when it exists; otherwise it loads, splits and builds. Then it
    builds the chain, rewrites the fixed question and runs the chain on
    the rewritten query.

    [rag_backend] is the [RagBackend] the app imports from
    [Rag_project.py]: the loader of [Loader], the splitter of
    [Splitter], the Chroma build of [Index] and the chain of [Chain],
    all on what is at [DATA_PATH] and one set of providers. The app's
    theorems of [App] hold for it. The theorems here follow a question,
    a failed re-index and a missing data directory through the whole
    program. *)

From S2P Require Import Prelude Loader Splitter Chain Index App.

Module Main.
Import Loader Chroma RagChain StreamlitApp.

(** The configuration, lines 76-77: raw strings, so the backslashes
    are characters of the path. [CHROMA_PATH] is the directory the
    [option collection] of the model stands for. *)
Definition DATA_PATH : string := "c:\Users\othma\Documents\Simple_RAG\data\sample_documents".
Definition CHROMA_PATH : string := "chroma_db".

Section Main.
Context `{Embeddings}.
(** [os.sep], and what is at [DATA_PATH] *)
Variable sep : string.
Variable data : data_dir.
Variable max_batch : nat.
Variable distance : vec -> vec -> Z.
Variable llm : chat_openai -> pystr -> result pystr.
Variable doc_repr : Document -> pystr.
Variable multi_query_prompt : pystr -> pystr.

#[local] Existing Instance chroma_search.
#[local] Instance main_search : VectorSearch collection := chroma_search distance.

(** [user_input], line 276 *)
Definition main_input : pystr := lit "What is the main topic of the documents?".

(** Lines 261-269: open the index directory, or build it. *)
Definition main_store (disk : option collection) : option collection * result collection :=
  match disk with
  | Some c => (disk, Ok c)
  | None =>
      match load_documents DATA_PATH sep data with
      | Err e => (disk, Err e)
      | Ok documents =>
          match RagProject.split_text documents with
          | Err e => (disk, Err e)
          | Ok chunks => create_vector_store max_batch disk chunks
          end
      end
  end.

(** The [__main__] block, lines 259-289: the index directory
    afterwards, and the printed answer or the exception. *)
Definition main (disk : option collection) : option collection * result pystr :=
  let '(disk', store) := main_store disk in
  (disk', vector_store <- store ;;
          run_answer llm doc_repr multi_query_prompt vector_store main_input).

(** The functions [app.py] imports, on the same directory and
    providers. *)
Definition rag_backend : RagBackend collection := {|
  rb_load_documents := load_documents DATA_PATH sep data;
  rb_create_vector_store := create_vector_store max_batch;
  rb_open := fun c => c;
  rb_construct_query := construct_query llm;
  rb_invoke := fun store q =>
    rag_chain <- create_rag_chain (get_retriever store) ;;
    rag_chain_invoke llm doc_repr multi_query_prompt rag_chain q;
  rb_create_persists := ltac:(
    intros d chunks s; unfold create_vector_store;
    destruct (add_batches _ _) as [c' [[]|e]]; simpl; congruence)
|}.

End Main.

End Main.

(** ** Properties of the composed program *)

Module PipelineSpec.
Import Loader LoaderSpec Chroma IndexSpec PromptTemplate RagChain ChainSpec StreamlitApp AppSpec Main.

(** The proofs below rewrite with the chain's lemmas; [simpl] leaves
    the template parser and the model calls alone. *)
#[local] Arguments create_rag_chain : simpl never.
#[local] Arguments construct_query : simpl never.
#[local] Arguments rag_chain_invoke : simpl never.
#[local] Arguments load_documents : simpl never.
#[local] Arguments RagProject.split_text : simpl never.
#[local] Arguments create_vector_store : simpl never.



Section Proofs.
Context `{Embeddings}.
Variable sep : string.
Variable data : data_dir.
Variable max_batch : nat.
Hypothesis max_batch_pos : 1 <= max_batch.
Variable distance : vec -> vec -> Z.
Variable llm : chat_openai -> pystr -> result pystr.
Variable doc_repr : Document -> pystr.
Variable multi_query_prompt : pystr -> pystr.
Variable secrets : gmap string pystr.

#[local] Instance pipeline_search : VectorSearch collection := chroma_search distance.
#[local] Instance backend : RagBackend collection :=
  rag_backend sep data max_batch distance llm doc_repr multi_query_prompt.

(** The chain [rb_invoke] builds on a store. *)
Lemma rb_invoke_chain (store : collection) q :
  rb_invoke store q
  = rag_chain_invoke llm doc_repr multi_query_prompt
      (mkRagChain (get_retriever store)
         [PLit rag_before; PVar (lit "context"); PLit rag_middle; PVar (lit "question"); PLit rag_after]
         answer_model) q.
Proof.
  change (rb_invoke store q) with
    (rag_chain <- create_rag_chain (get_retriever store) ;;
     rag_chain_invoke llm doc_repr multi_query_prompt rag_chain q).
  by rewrite create_rag_chain_ok.
Qed.

Lemma run_answer_backend (store : collection) u :
  run_answer llm doc_repr multi_query_prompt store u
  = (q <- rb_construct_query u ;; rb_invoke store q).
Proof.
  unfold run_answer. rewrite create_rag_chain_ok, rbind_Ok. unfold answer.
  simpl rb_construct_query. destruct (construct_query llm u) as [q|e]; [|done].
  rewrite !rbind_Ok. by rewrite rb_invoke_chain.
Qed.

(** C19: without an index directory, an answer from [__main__] means
    that the documents loaded, the splitter returned the chunks, and the
    build wrote exactly those chunks to a new directory whose collection
    the query path then answered from. *)
Theorem main_fresh_spec d' a :
  main sep data max_batch distance llm doc_repr multi_query_prompt None = (d', Ok a) ->
  exists docs chunks c,
    load_documents DATA_PATH sep data = Ok docs
    /\ RagProject.split_text docs = Ok chunks
    /\ d' = Some c
    /\ map r_doc (c_records c) = map stored_doc chunks
    /\ run_answer llm doc_repr multi_query_prompt c main_input = Ok a.
Proof.
  unfold main, main_store.
  destruct (load_documents _ _ _) as [docs|e] eqn:Hl; [|by intros [=]].
  destruct (RagProject.split_text docs) as [chunks|e] eqn:Hs; [|by intros [=]].
  destruct (create_vector_store max_batch None chunks) as [d1 [c|e]] eqn:Hc; [|by intros [=]].
  intros [= <- Ha]. rewrite ?rbind_Ok in Ha.
  destruct (create_vector_store_spec max_batch max_batch_pos None chunks d1 c wf_empty Hc)
    as (-> & _ & new & Hnew & Hd).
  exists docs, chunks, c. split_and!; [done|done|done| |exact Ha].
  rewrite Hnew. exact Hd.
Qed.

(** C8: the app answers a chat message with the query path of
    [__main__] on the cached store: the user's message is appended, and
    the answer after it when the path returns one. A failing path
    appends the user's message alone. *)
Theorem app_chat_is_query_path w (store : collection) p :
  messages (w_session (chat_turn w store p))
  = messages (w_session w) ++ [mkMessage User p]
    ++ match run_answer llm doc_repr multi_query_prompt store p with
       | Ok a => [mkMessage Assistant a]
       | Err _ => []
       end.
Proof.
  rewrite run_answer_backend. unfold chat_turn.
  destruct (rb_construct_query p) as [q|e]; cbn [rbind];
    [destruct (rb_invoke store q) as [a|e]|];
    cbn [rbind w_session with_session]; rewrite messages_set, ?app_nil_r; by rewrite <-?app_assoc.
Qed.


(** C24: when nothing is at [DATA_PATH] (the Windows path of line 76
    on any other machine) and no index directory ships with the app,
    the app never serves: along any sequence of events no index
    directory appears, no store is cached and the history stays as it
    was, and every event ends at the password gate, in a rerun, or with
    the loader's [FileNotFoundError] on [DATA_PATH]. *)
Theorem missing_data_dir_never_serves ss us u :
  data = DirMissing ->
  let w := run_events secrets (mkWorld ss None None) us in
  let o := (handle_event secrets w u).2 in
  w_disk w = None /\ w_cache w = None /\ messages (w_session w) = messages ss
  /\ (o = Stopped \/ o = Rerun \/ o = Crashed (FileNotFoundError DATA_PATH)).
Proof.
  intros Hd w o.
  assert (Hl : rb_load_documents = Err (FileNotFoundError DATA_PATH))
    by (change (load_documents DATA_PATH sep data = Err (FileNotFoundError DATA_PATH));
        by rewrite Hd).
  destruct (run_events_load_failure secrets (mkWorld ss None None) us _ Hl eq_refl eq_refl)
    as (Hd1 & Hc1 & Hm1).
  pose proof (serve_load_failure secrets 2 w u _ Hl Hd1 Hc1) as Hs. subst o.
  unfold handle_event. destruct (serve secrets 2 w u) as [w2 o]. naive_solver.
Qed.

End Proofs.

(** *** Witnesses *)

Lemma main_fresh_spec_witness :
  exists d' a,
    main (H := toy_embeddings) "/" (DirFiles [good_txt]) 1 toy_distance office_llm page_content
      (fun q => q) None = (d', Ok a)
    /\ exists docs chunks c,
         load_documents DATA_PATH "/" (DirFiles [good_txt]) = Ok docs
         /\ RagProject.split_text docs = Ok chunks
         /\ d' = Some c
         /\ map r_doc (c_records c) = map stored_doc chunks
         /\ run_answer (H := chroma_search (H := toy_embeddings) toy_distance)
              office_llm page_content (fun q => q) c main_input = Ok a.
Proof.
  do 2 eexists. split; [vm_compute; reflexivity|].
  apply (main_fresh_spec (H := toy_embeddings) "/" (DirFiles [good_txt]) 1 ltac:(lia)).
  vm_compute. reflexivity.
Defined.


Lemma missing_data_dir_never_serves_witness :
  let b := rag_backend (H := toy_embeddings) "/" DirMissing 1 toy_distance office_llm
             page_content (fun q => q) in
  let u := mkUi (lit "admin123") true false None in
  let w := run_events (H := b) ∅ (mkWorld ∅ None None) [u] in
  let o := (handle_event (H := b) ∅ w u).2 in
  w_disk w = None /\ w_cache w = None /\ messages (w_session w) = messages ∅
  /\ (o = Stopped \/ o = Rerun \/ o = Crashed (FileNotFoundError DATA_PATH)).
Proof.
  exact (missing_data_dir_never_serves (H := toy_embeddings) "/" DirMissing 1 toy_distance
           office_llm page_content (fun q => q) ∅ ∅ [mkUi (lit "admin123") true false None]
           (mkUi (lit "admin123") true false None) eq_refl).
Defined.

End PipelineSpec.
